(** * Squish the Phish: the spam-report command of the Outlook add-in

    A shallow embedding of [src/spamreporting/msgraph-helper.ts] and
    [src/spamreporting/spamreporting.ts].

    - JavaScript values that cross the code as [any] (the event's [options],
      parsed response bodies) are the inductive [JSValue]; numbers are
      restricted to integers.
    - An [async] function is a computation in the monad [M]: it yields the
      list of host calls it made, in order, and its outcome: a value, the
      thrown error, or [Pending] when an awaited call never settles.
      [await] is [bind], [try]/[catch] is [try_catch].
    - Everything the program does not define itself (the Office host, the
      account manager of [authConfig.ts], [fetch], [JSON]) is a field of the
      record [Host]; theorems quantify over every host.
    - Console output is diagnostic only and is not part of the model. *)

From Stdlib Require Import String Ascii List ZArith Lia Bool DecimalString.
Import ListNotations.
Local Open Scope string_scope.

(** ** JavaScript values *)

#[local] Set Warnings "-register-all".

Inductive JSValue : Type :=
| JUndefined
| JNull
| JBool (b : bool)
| JNumber (n : Z)
| JString (s : string)
| JArray (items : list JSValue)
| JObject (props : list (string * JSValue)).

(** Thrown values: every [throw] of the program throws an [Error] object;
    the host may throw errors of other classes. *)
Record JSError : Type := mkError { err_name : string; err_message : string }.

Definition Error (message : string) : JSError := mkError "Error" message.
Definition TypeError (message : string) : JSError := mkError "TypeError" message.

Inductive Result (A : Type) : Type :=
| Ok (a : A)
| Throw (e : JSError).
Arguments Ok {A} a.
Arguments Throw {A} e.

(** What an awaited call comes to: it settles, with a value or with an
    error, or it never does. *)
Inductive Outcome (A : Type) : Type :=
| Settled (r : Result A)
| Pending.
Arguments Settled {A} r.
Arguments Pending {A}.
Coercion Settled : Result >-> Outcome.

Definition rbind {A B} (r : Result A) (k : A -> Result B) : Result B :=
  match r with
  | Ok a => k a
  | Throw e => Throw e
  end.

(** ** Strings *)

Definition string_of_Z (n : Z) : string := NilZero.string_of_int (Z.to_int n).
Definition string_of_nat (n : nat) : string := NilZero.string_of_uint (Nat.to_uint n).

(** [s.startsWith(p)] *)
Definition startsWith (s p : string) : bool := String.prefix p s.

(** [s.includes(p)] *)
Fixpoint includes (s p : string) : bool :=
  String.prefix p s ||
  match s with
  | EmptyString => false
  | String _ s' => includes s' p
  end.

(** A string is truthy when it is not empty. *)
Definition nonempty (s : string) : bool :=
  match s with
  | EmptyString => false
  | String _ _ => true
  end.

Fixpoint join (sep : string) (l : list string) : string :=
  match l with
  | [] => EmptyString
  | [x] => x
  | x :: r => x ++ sep ++ join sep r
  end.

(** ** Language-level operations on values *)

(** ToBoolean *)
Definition truthy (v : JSValue) : bool :=
  match v with
  | JUndefined | JNull => false
  | JBool b => b
  | JNumber n => negb (n =? 0)%Z
  | JString s => nonempty s
  | JArray _ | JObject _ => true
  end.

(** [v === true] *)
Definition strict_eq_true (v : JSValue) : bool :=
  match v with
  | JBool true => true
  | _ => false
  end.

Fixpoint lookup (k : string) (props : list (string * JSValue)) : JSValue :=
  match props with
  | [] => JUndefined
  | (k', v) :: rest => if String.eqb k k' then v else lookup k rest
  end.

(** The element of an array whose index prints as [k], counting from [i]. *)
Fixpoint array_get (items : list JSValue) (i : nat) (k : string) : JSValue :=
  match items with
  | [] => JUndefined
  | x :: rest => if String.eqb k (string_of_nat i) then x else array_get rest (S i) k
  end.

Fixpoint string_get (s : string) (i : nat) (k : string) : JSValue :=
  match s with
  | EmptyString => JUndefined
  | String c rest =>
      if String.eqb k (string_of_nat i) then JString (String c EmptyString)
      else string_get rest (S i) k
  end.

(** Property read [v.k] or [v[k]]: own properties, the elements and the
    length of arrays and strings.  Reading a property of [undefined] or
    [null] throws.  Inherited methods are not modelled: the program reads
    only the keys [0], [1], [2], [id], [error] and [message]. *)
Definition get_prop (v : JSValue) (k : string) : Result JSValue :=
  match v with
  | JUndefined | JNull => Throw (TypeError "Cannot read properties of undefined or null")
  | JBool _ | JNumber _ => Ok JUndefined
  | JString s =>
      if String.eqb k "length" then Ok (JNumber (Z.of_nat (String.length s)))
      else Ok (string_get s 0 k)
  | JArray items =>
      if String.eqb k "length" then Ok (JNumber (Z.of_nat (List.length items)))
      else Ok (array_get items 0 k)
  | JObject props => Ok (lookup k props)
  end.

(** ** The host *)

Record Request : Type := mkRequest {
  req_method : string;
  req_url : string;
  req_headers : list (string * string);
  req_body : option string
}.

Record Response : Type := mkResponse {
  status : Z;
  statusText : string;
  responseText : string
}.

(** [response.ok]: the status is in the range 200-299. *)
Definition ok (r : Response) : bool := ((200 <=? status r) && (status r <=? 299))%Z.

(** [Office.context.mailbox.item]; [itemId] is undefined in compose mode. *)
Record Item : Type := mkItem { itemId : option string }.

(** [Office.context.mailbox.userProfile]; [emailAddress] may be undefined. *)
Record UserProfile : Type := mkUserProfile { emailAddress : option string }.

Record Host : Type := mkHost {
  (** [await accountManager.initialize()] *)
  initialize : Outcome unit;
  (** [await accountManager.ssoGetAccessToken(scopes)] *)
  ssoGetAccessToken : list string -> Outcome string;
  mailbox_item : option Item;
  mailbox_userProfile : option UserProfile;
  (** [Office.context.mailbox.convertToRestId(itemId, restVersion)] *)
  convertToRestId : string -> string -> Result string;
  (** [await fetch(url, init)] *)
  fetch : Request -> Outcome Response;
  JSON_parse : string -> Result JSValue;
  JSON_stringify : JSValue -> string;
  (** The text of a number in a template literal: its decimal digits when
      its magnitude is below 10^21, the exponent form above. *)
  Number_toString : Z -> string;
  (** [event.completed({ allowEvent })], the callback of the event the host
      hands to the command. *)
  event_completed : bool -> Result unit
}.

(** An own property, whatever its value. *)
Definition has_own (k : string) (props : list (string * JSValue)) : bool :=
  existsb (fun kv => String.eqb (fst kv) k) props.

(** ToString, as a template literal applies it.  An array joins the texts
    of its elements; a plain object is [[object Object]] unless an own
    [toString] property hides the inherited method: a data property is not
    callable, and the conversion throws. *)
Fixpoint ToString (h : Host) (v : JSValue) : Result string :=
  match v with
  | JUndefined => Ok "undefined"
  | JNull => Ok "null"
  | JBool true => Ok "true"
  | JBool false => Ok "false"
  | JNumber n => Ok (Number_toString h n)
  | JString s => Ok s
  | JArray items =>
      (fix elements (l : list JSValue) : Result string :=
         match l with
         | [] => Ok EmptyString
         | x :: rest =>
             rbind (match x with
                    | JUndefined | JNull => Ok EmptyString
                    | _ => ToString h x
                    end) (fun first =>
             match rest with
             | [] => Ok first
             | _ :: _ => rbind (elements rest) (fun others => Ok (first ++ "," ++ others))
             end)
         end) items
  | JObject props =>
      if has_own "toString" props
      then Throw (TypeError "Cannot convert object to primitive value")
      else Ok "[object Object]"
  end.

(** The calls a run makes to the host, in order. *)
Inductive Event : Type :=
| EvInitialize
| EvSsoGetAccessToken (scopes : list string)
| EvConvertToRestId (id : string) (restVersion : string)
| EvFetch (req : Request)
| EvCompleted (allowEvent : bool).

(** ** The monad of asynchronous computations *)

Definition M (A : Type) : Type := (list Event * Outcome A)%type.

(** A pair is read against the type expected of it, so that a [Result]
    stands for a settled outcome inside a run. *)
#[local] Arguments pair {A B} & a b.

Definition ret {A} (a : A) : M A := ([], Settled (Ok a)).
Definition throw {A} (e : JSError) : M A := ([], Settled (Throw e)).

(** [await m], then [k]: an error of [m] is thrown on, and nothing follows
    an [m] that never settles. *)
Definition bind {A B} (m : M A) (k : A -> M B) : M B :=
  match m with
  | (t, Settled (Ok a)) => let (t', r) := k a in ((t ++ t')%list, r)
  | (t, Settled (Throw e)) => (t, Settled (Throw e))
  | (t, Pending) => (t, Pending)
  end.

(** [try { m } catch (e) { handler e }] *)
Definition try_catch {A} (m : M A) (handler : JSError -> M A) : M A :=
  match m with
  | (t, Settled (Ok a)) => (t, Settled (Ok a))
  | (t, Settled (Throw e)) => let (t', r) := handler e in ((t ++ t')%list, r)
  | (t, Pending) => (t, Pending)
  end.

(** The outcome of a step that gave no value, as the outcome of the run it
    stops. *)
Definition stopped {A B} (o : Outcome A) : Outcome B :=
  match o with
  | Settled (Throw e) => Settled (Throw e)
  | _ => Pending
  end.

(** A host call: one event, then the host's answer. *)
Definition call {A} (ev : Event) (r : Outcome A) : M A := ([ev], r).

(** A computation that touches no host function. *)
Definition pure {A} (r : Result A) : M A := ([], Settled r).

Definition trace {A} (m : M A) : list Event := fst m.
Definition outcome {A} (m : M A) : Outcome A := snd m.

Declare Scope js_scope.
Delimit Scope js_scope with js.
Notation "x <- m ;; k" := (bind m (fun x => k))
  (at level 61, m at next level, right associativity) : js_scope.
Notation "m ;;; k" := (bind m (fun _ => k))
  (at level 61, right associativity) : js_scope.
Local Open Scope js_scope.

(** ** msgraph-helper.ts *)

Definition graphBase : string := "https://graph.microsoft.com/beta".

(** The request of line 21: [fetch] with no method is a GET. *)
Definition getRequest (accessToken path queryParams : string) : Request :=
  mkRequest "GET" (graphBase ++ path ++ queryParams)
    [("Authorization", accessToken)] None.

(** The request of lines 54-61. *)
Definition postRequest (h : Host) (accessToken url : string) (body : JSValue) : Request :=
  mkRequest "POST" url
    [("Authorization", accessToken); ("Content-Type", "application/json")]
    (Some (JSON_stringify h body)).

Definition makeGraphRequest (h : Host) (accessToken path queryParams : string)
  : M JSValue :=
  if negb (nonempty path) then throw (Error "path is required.")
  else if negb (startsWith path "/") then throw (Error "path must start with '/'.")
  else if nonempty queryParams && negb (startsWith queryParams "?")
  then throw (Error "queryParams must start with '?'.")
  else
    let req := getRequest accessToken path queryParams in
    response <- call (EvFetch req) (fetch h req) ;;
    if ok response then
      data <- pure (JSON_parse h (responseText response)) ;;
      ret data
    else throw (Error (statusText response)).

(** The message built on a failed POST (lines 71-84): the inner [try] parses
    the body, reads [errorData.error] and converts the detail to text;
    whatever it throws, the [catch] appends the raw text instead. *)
Definition postErrorMessage (h : Host) (response : Response) : string :=
  let errorText := responseText response in
  let errorMessage := string_of_Z (status response) ++ " " ++ statusText response in
  let attempt : Result string :=
    rbind (JSON_parse h errorText) (fun errorData =>
    rbind (get_prop errorData "error") (fun error =>
    if truthy error then
      rbind (get_prop error "message") (fun message =>
      rbind (if truthy message then ToString h message
             else Ok (JSON_stringify h error)) (fun detail =>
      Ok (errorMessage ++ ": " ++ detail)))
    else Ok errorMessage)) in
  match attempt with
  | Ok m => m
  | Throw _ => errorMessage ++ ": " ++ errorText
  end.

Definition makeGraphPostRequest (h : Host) (accessToken path : string) (body : JSValue)
  : M JSValue :=
  if negb (nonempty path) then throw (Error "path is required.")
  else if negb (startsWith path "/") then throw (Error "path must start with '/'.")
  else
    let url := graphBase ++ path in
    try_catch
      (let req := postRequest h accessToken url body in
       response <- call (EvFetch req) (fetch h req) ;;
       if ok response then
         data <- pure (JSON_parse h (responseText response)) ;;
         ret data
       else throw (Error (postErrorMessage h response)))
      (fun error => throw error).

(** What [makeGraphRequest] does once its arguments have passed the checks. *)
Definition getAfterChecks (h : Host) (accessToken path queryParams : string) : M JSValue :=
  match fetch h (getRequest accessToken path queryParams) with
  | Settled (Ok response) =>
      ([EvFetch (getRequest accessToken path queryParams)],
       Settled (if ok response then JSON_parse h (responseText response)
                else Throw (Error (statusText response))))
  | Settled (Throw e) =>
      ([EvFetch (getRequest accessToken path queryParams)], Settled (Throw e))
  | Pending => ([EvFetch (getRequest accessToken path queryParams)], Pending)
  end.

Definition postAfterChecks (h : Host) (accessToken path : string) (body : JSValue)
  : M JSValue :=
  match fetch h (postRequest h accessToken (graphBase ++ path) body) with
  | Settled (Ok response) =>
      ([EvFetch (postRequest h accessToken (graphBase ++ path) body)],
       Settled (if ok response then JSON_parse h (responseText response)
                else Throw (Error (postErrorMessage h response))))
  | Settled (Throw e) =>
      ([EvFetch (postRequest h accessToken (graphBase ++ path) body)], Settled (Throw e))
  | Pending => ([EvFetch (postRequest h accessToken (graphBase ++ path) body)], Pending)
  end.

(** ** spamreporting.ts *)

(** [v[i]] with a numeric index: the property whose key is the index in
    decimal. *)
Definition get_index (v : JSValue) (i : nat) : Result JSValue :=
  get_prop v (string_of_nat i).

(** The errors of lines 39 and 119. *)
Definition noUserId : JSError := Error "Unable to retrieve user ID from Graph API".
Definition noEmailAddress : JSError := Error "Unable to get user email address".

Definition getCurrentUserId (h : Host) (accessToken : string) : M JSValue :=
  try_catch
    (userProfile <- makeGraphRequest h accessToken "/me" "?$select=id" ;;
     if truthy userProfile then
       id <- pure (get_prop userProfile "id") ;;
       if truthy id then ret id
       else throw (Error "Unable to retrieve user ID from Graph API")
     else throw (Error "Unable to retrieve user ID from Graph API"))
    (fun error => throw error).

(** [Office.MailboxEnums.RestVersion.v2_0] *)
Definition RestVersion_v2_0 : string := "v2.0".

Definition getCurrentMessageUrl (h : Host) (accessToken : string) : M string :=
  match mailbox_item h with
  | None => throw (Error "No email item is currently selected.")
  | Some item =>
      match itemId item with
      | Some (String c rest) =>
          let itemId := String c rest in
          try_catch
            (userId <- getCurrentUserId h accessToken ;;
             restId <- call (EvConvertToRestId itemId RestVersion_v2_0)
                         (convertToRestId h itemId RestVersion_v2_0) ;;
             userIdText <- pure (ToString h userId) ;;
             let messageUrl :=
               "https://graph.microsoft.com/beta/users/" ++ userIdText
                 ++ "/messages/" ++ restId in
             ret messageUrl)
            (fun error => throw error)
      | Some EmptyString | None =>
          throw (Error "Item ID is not available - cannot get message URL")
      end
  end.

Definition getRecipientEmailAddress (h : Host) : M string :=
  match mailbox_userProfile h with
  | Some userProfile =>
      match emailAddress userProfile with
      | Some (String c rest) => ret (String c rest)
      | Some EmptyString | None => throw (Error "Unable to get user email address")
      end
  | None => throw (Error "Unable to get user email address")
  end.

Inductive Category : Type := phishing | spam | notJunk.

Definition category_string (c : Category) : string :=
  match c with
  | phishing => "phishing"
  | spam => "spam"
  | notJunk => "notJunk"
  end.

Definition scopes : list string := ["ThreatSubmission.ReadWrite"; "Mail.Read"].

Definition emailThreatsPath : string := "/security/threatSubmission/emailThreats".

(** The request body of lines 153-158. *)
Definition reportBody (category : Category) (recipientEmail messageUrl : string)
  : JSValue :=
  JObject [ ("@odata.type", JString "#microsoft.graph.security.emailUrlThreatSubmission");
            ("category", JString (category_string category));
            ("recipientEmailAddress", JString recipientEmail);
            ("messageUrl", JString messageUrl) ].

Definition submitEmailThreat (h : Host) (category : Category) : M JSValue :=
  try_catch
    (accessToken <- call (EvSsoGetAccessToken scopes) (ssoGetAccessToken h scopes) ;;
     recipientEmail <- getRecipientEmailAddress h ;;
     messageUrl <- getCurrentMessageUrl h accessToken ;;
     let body := reportBody category recipientEmail messageUrl in
     response <- makeGraphPostRequest h accessToken emailThreatsPath body ;;
     ret response)
    (fun error => throw error).

(** Lines 197-214 of [onSpamReport]: the category chosen from
    [event.options]. *)
Definition onSpamReport_category (reportingOptions : JSValue) : Result Category :=
  let category := phishing in
  if truthy reportingOptions then
    rbind (get_index reportingOptions 0) (fun o0 =>
    if strict_eq_true o0 then Ok phishing
    else
      rbind (get_index reportingOptions 1) (fun o1 =>
      if strict_eq_true o1 then Ok spam
      else
        rbind (get_index reportingOptions 2) (fun o2 =>
        if strict_eq_true o2 then Ok notJunk
        else Ok category)))
  else Ok category.

(** [reportingOptions[i] === true], for any value of [reportingOptions]. *)
Definition selects (reportingOptions : JSValue) (i : nat) : bool :=
  match get_index reportingOptions i with
  | Ok v => strict_eq_true v
  | Throw _ => false
  end.

(** The outcome of the chain of tests of lines 207-213, by the entries
    that are [true]. *)
Definition categoryOf (reportingOptions : JSValue) : Category :=
  if selects reportingOptions 0 then phishing
  else if selects reportingOptions 1 then spam
  else if selects reportingOptions 2 then notJunk
  else phishing.

(** The event handed to the command; [options] is [JUndefined] when the
    event carries none. *)
Record SpamReportEvent : Type := mkEvent { options : JSValue }.

(** [event.completed({ allowEvent })]: a call of the host, which may throw
    like any other. *)
Definition completed (h : Host) (allowEvent : bool) : M unit :=
  call (EvCompleted allowEvent) (event_completed h allowEvent).

Definition onSpamReport (h : Host) (event : SpamReportEvent) : M unit :=
  try_catch
    (call EvInitialize (initialize h) ;;;
     let reportingOptions := options event in
     category <- pure (onSpamReport_category reportingOptions) ;;
     submitEmailThreat h category ;;;
     completed h true)
    (fun error => completed h false).

(** ** Observations on a trace *)

(** The arguments of the [event.completed] calls of a trace, in order. *)
Fixpoint completions (t : list Event) : list bool :=
  match t with
  | [] => []
  | EvCompleted allowEvent :: rest => allowEvent :: completions rest
  | _ :: rest => completions rest
  end.

(** The POST requests of a trace, in order. *)
Fixpoint posts (t : list Event) : list Request :=
  match t with
  | [] => []
  | EvFetch req :: rest =>
      if String.eqb (req_method req) "POST" then req :: posts rest else posts rest
  | _ :: rest => posts rest
  end.

(** The requests of a trace, in order. *)
Fixpoint fetches (t : list Event) : list Request :=
  match t with
  | [] => []
  | EvFetch req :: rest => req :: fetches rest
  | _ :: rest => fetches rest
  end.

(** The value of the header [name] of a request. *)
Definition header (name : string) (req : Request) : option string :=
  match find (fun kv => String.eqb (fst kv) name) (req_headers req) with
  | Some kv => Some (snd kv)
  | None => None
  end.

(** Whether the answer of the server to a POST lets [makeGraphPostRequest]
    return: a success status and a body that parses as JSON. *)
Definition accepted (h : Host) (answer : Result Response) : bool :=
  match answer with
  | Ok response =>
      ok response &&
      match JSON_parse h (responseText response) with
      | Ok _ => true
      | Throw _ => false
      end
  | Throw _ => false
  end.

(** ** A concrete host

    Used to run the program on concrete inputs.  Its [JSON.parse] reads the
    JSON texts whose numbers are integers and whose strings have no [\u]
    escapes, and rejects every other text; its [JSON.stringify] prints
    without spaces. *)

Module Demo.

Definition dq : ascii := "034"%char.
Definition dquote : string := String dq EmptyString.
Definition backslash : ascii := "092"%char.

Definition is_ws (c : ascii) : bool :=
  ((c =? " ") || (c =? "009") || (c =? "010") || (c =? "013"))%char.

Fixpoint skip_ws (s : string) : string :=
  match s with
  | String c r => if is_ws c then skip_ws r else s
  | EmptyString => s
  end.

Definition unescape (c : ascii) : option ascii :=
  if (c =? dq)%char then Some dq
  else if (c =? backslash)%char then Some backslash
  else if (c =? "/")%char then Some "/"%char
  else if (c =? "n")%char then Some "010"%char
  else if (c =? "t")%char then Some "009"%char
  else if (c =? "r")%char then Some "013"%char
  else if (c =? "b")%char then Some "008"%char
  else if (c =? "f")%char then Some "012"%char
  else None.

(** The characters of a string literal, after its opening quote. *)
Fixpoint parse_chars (s : string) : option (string * string) :=
  match s with
  | EmptyString => None
  | String c r =>
      if (c =? dq)%char then Some (EmptyString, r)
      else if (c =? backslash)%char then
        match r with
        | String e r' =>
            match unescape e, parse_chars r' with
            | Some c', Some (str, rest) => Some (String c' str, rest)
            | _, _ => None
            end
        | EmptyString => None
        end
      else if (nat_of_ascii c <? 32)%nat then None
      else
        match parse_chars r with
        | Some (str, rest) => Some (String c str, rest)
        | None => None
        end
  end.

Definition digit_of (c : ascii) : option Z :=
  let n := nat_of_ascii c in
  if ((48 <=? n) && (n <=? 57))%nat then Some (Z.of_nat (n - 48)) else None.

Fixpoint parse_digits (acc : Z) (s : string) : Z * string :=
  match s with
  | String c r =>
      match digit_of c with
      | Some d => parse_digits (10 * acc + d) r
      | None => (acc, s)
      end
  | EmptyString => (acc, s)
  end.

(** An integer literal: no leading zero, no fraction, no exponent. *)
Definition parse_nat_literal (s : string) : option (Z * string) :=
  match s with
  | String c r =>
      match digit_of c with
      | Some d =>
          let (n, rest) := if (d =? 0)%Z then (0%Z, r) else parse_digits d r in
          match rest with
          | String c' _ =>
              if ((c' =? ".") || (c' =? "e") || (c' =? "E"))%char then None
              else match digit_of c' with Some _ => None | None => Some (n, rest) end
          | EmptyString => Some (n, rest)
          end
      | None => None
      end
  | EmptyString => None
  end.

Definition parse_number (s : string) : option (JSValue * string) :=
  match s with
  | String c r =>
      if (c =? "-")%char then
        match parse_nat_literal r with
        | Some (n, rest) => Some (JNumber (- n), rest)
        | None => None
        end
      else
        match parse_nat_literal s with
        | Some (n, rest) => Some (JNumber n, rest)
        | None => None
        end
  | EmptyString => None
  end.

(** A repeated key keeps its first position and takes the last value. *)
Fixpoint set_prop (k : string) (v : JSValue) (props : list (string * JSValue))
  : list (string * JSValue) :=
  match props with
  | [] => [(k, v)]
  | (k', v') :: rest =>
      if String.eqb k k' then (k', v) :: rest else (k', v') :: set_prop k v rest
  end.

Definition expect (word : string) (v : JSValue) (s : string) : option (JSValue * string) :=
  if String.prefix word s
  then Some (v, String.substring (String.length word)
                  (String.length s - String.length word) s)
  else None.

Fixpoint parse_value (fuel : nat) (s : string) : option (JSValue * string) :=
  match fuel with
  | O => None
  | S f =>
      match skip_ws s with
      | EmptyString => None
      | String c r as s' =>
          if (c =? "{")%char then
            match skip_ws r with
            | String c' r' =>
                if (c' =? "}")%char then Some (JObject [], r')
                else parse_members f r []
            | EmptyString => None
            end
          else if (c =? "[")%char then
            match skip_ws r with
            | String c' r' =>
                if (c' =? "]")%char then Some (JArray [], r')
                else parse_elements f r []
            | EmptyString => None
            end
          else if (c =? dq)%char then
            match parse_chars r with
            | Some (str, rest) => Some (JString str, rest)
            | None => None
            end
          else if (c =? "t")%char then expect "true" (JBool true) s'
          else if (c =? "f")%char then expect "false" (JBool false) s'
          else if (c =? "n")%char then expect "null" JNull s'
          else parse_number s'
      end
  end
with parse_members (fuel : nat) (s : string) (acc : list (string * JSValue))
  : option (JSValue * string) :=
  match fuel with
  | O => None
  | S f =>
      match skip_ws s with
      | String c r =>
          if (c =? dq)%char then
            match parse_chars r with
            | Some (key, rest) =>
                match skip_ws rest with
                | String c1 r1 =>
                    if (c1 =? ":")%char then
                      match parse_value f r1 with
                      | Some (v, r2) =>
                          match skip_ws r2 with
                          | String c3 r3 =>
                              if (c3 =? ",")%char then parse_members f r3 (set_prop key v acc)
                              else if (c3 =? "}")%char then Some (JObject (set_prop key v acc), r3)
                              else None
                          | EmptyString => None
                          end
                      | None => None
                      end
                    else None
                | EmptyString => None
                end
            | None => None
            end
          else None
      | EmptyString => None
      end
  end
with parse_elements (fuel : nat) (s : string) (acc : list JSValue)
  : option (JSValue * string) :=
  match fuel with
  | O => None
  | S f =>
      match parse_value f s with
      | Some (v, r) =>
          match skip_ws r with
          | String c r' =>
              if (c =? ",")%char then parse_elements f r' (acc ++ [v])%list
              else if (c =? "]")%char then Some (JArray (acc ++ [v])%list, r')
              else None
          | EmptyString => None
          end
      | None => None
      end
  end.

Definition parse (text : string) : Result JSValue :=
  match parse_value (S (String.length text)) text with
  | Some (v, rest) =>
      match skip_ws rest with
      | EmptyString => Ok v
      | String _ _ => Throw (mkError "SyntaxError" "Unexpected non-whitespace character after JSON")
      end
  | None => Throw (mkError "SyntaxError" "Unexpected token in JSON")
  end.

Definition escape_char (c : ascii) : string :=
  if (c =? dq)%char then String backslash dquote
  else if (c =? backslash)%char then String backslash (String backslash EmptyString)
  else if (c =? "010")%char then String backslash "n"
  else if (c =? "009")%char then String backslash "t"
  else if (c =? "013")%char then String backslash "r"
  else if (c =? "008")%char then String backslash "b"
  else if (c =? "012")%char then String backslash "f"
  else String c EmptyString.

Fixpoint escape (s : string) : string :=
  match s with
  | EmptyString => EmptyString
  | String c r => escape_char c ++ escape r
  end.

Definition quote (s : string) : string := dquote ++ escape s ++ dquote.

Fixpoint stringify (v : JSValue) : string :=
  match v with
  | JUndefined => "undefined"
  | JNull => "null"
  | JBool true => "true"
  | JBool false => "false"
  | JNumber n => string_of_Z n
  | JString s => quote s
  | JArray items =>
      "[" ++ join "," (map (fun x => match x with
                                     | JUndefined => "null"
                                     | _ => stringify x
                                     end) items) ++ "]"
  | JObject props =>
      "{" ++ join "," (flat_map (fun kv : string * JSValue => let (k, x) := kv in
                                  match x with
                                  | JUndefined => @nil string
                                  | _ => [quote k ++ ":" ++ stringify x]
                                  end) props) ++ "}"
  end.

(** The host's conversion of an EWS identifier to a REST identifier:
    [/] becomes [-] and [+] becomes [_]. *)
Fixpoint toRestId (id : string) : string :=
  match id with
  | EmptyString => EmptyString
  | String c r =>
      String (if (c =? "/")%char then "-"%char
              else if (c =? "+")%char then "_"%char else c) (toRestId r)
  end.

(** A host whose mailbox has message [id] selected and belongs to [email],
    and whose server answers [profile] to a GET and [answer] to a POST. *)
Definition host (id email : option string) (profile answer : Response) : Host :=
  {| initialize := Ok tt;
     ssoGetAccessToken := fun _ => Ok "token";
     mailbox_item := Some (mkItem id);
     mailbox_userProfile := Some (mkUserProfile email);
     convertToRestId := fun i _ => Ok (toRestId i);
     fetch := fun req => if String.eqb (req_method req) "GET" then Ok profile else Ok answer;
     JSON_parse := parse;
     JSON_stringify := stringify;
     Number_toString := string_of_Z;
     event_completed := fun _ => Ok tt |}.

(** The texts [{"error":{"message":"..."}}] and [{"id":"..."}]. *)
Definition errorBody (message : string) : string :=
  "{" ++ quote "error" ++ ":{" ++ quote "message" ++ ":" ++ quote message ++ "}}".

Definition profileBody (id : string) : string :=
  "{" ++ quote "id" ++ ":" ++ quote id ++ "}".

(** [h] with an account manager that cannot be initialised, or that cannot
    give a token. *)
Definition uninitialised (e : JSError) (h : Host) : Host :=
  {| initialize := Throw e;
     ssoGetAccessToken := ssoGetAccessToken h;
     mailbox_item := mailbox_item h;
     mailbox_userProfile := mailbox_userProfile h;
     convertToRestId := convertToRestId h;
     fetch := fetch h;
     JSON_parse := JSON_parse h;
     JSON_stringify := JSON_stringify h;
     Number_toString := Number_toString h;
     event_completed := event_completed h |}.

Definition tokenless (e : JSError) (h : Host) : Host :=
  {| initialize := initialize h;
     ssoGetAccessToken := fun _ => Throw e;
     mailbox_item := mailbox_item h;
     mailbox_userProfile := mailbox_userProfile h;
     convertToRestId := convertToRestId h;
     fetch := fetch h;
     JSON_parse := JSON_parse h;
     JSON_stringify := JSON_stringify h;
     Number_toString := Number_toString h;
     event_completed := event_completed h |}.

(** [h] without a network, and [h] with a conversion that throws. *)
Definition offline (e : JSError) (h : Host) : Host :=
  {| initialize := initialize h;
     ssoGetAccessToken := ssoGetAccessToken h;
     mailbox_item := mailbox_item h;
     mailbox_userProfile := mailbox_userProfile h;
     convertToRestId := convertToRestId h;
     fetch := fun _ => Throw e;
     JSON_parse := JSON_parse h;
     JSON_stringify := JSON_stringify h;
     Number_toString := Number_toString h;
     event_completed := event_completed h |}.

Definition unconvertible (e : JSError) (h : Host) : Host :=
  {| initialize := initialize h;
     ssoGetAccessToken := ssoGetAccessToken h;
     mailbox_item := mailbox_item h;
     mailbox_userProfile := mailbox_userProfile h;
     convertToRestId := fun _ _ => Throw e;
     fetch := fetch h;
     JSON_parse := JSON_parse h;
     JSON_stringify := JSON_stringify h;
     Number_toString := Number_toString h;
     event_completed := event_completed h |}.

(** [h] with no item open in the mailbox. *)
Definition unselected (h : Host) : Host :=
  {| initialize := initialize h;
     ssoGetAccessToken := ssoGetAccessToken h;
     mailbox_item := None;
     mailbox_userProfile := mailbox_userProfile h;
     convertToRestId := convertToRestId h;
     fetch := fetch h;
     JSON_parse := JSON_parse h;
     JSON_stringify := JSON_stringify h;
     Number_toString := Number_toString h;
     event_completed := event_completed h |}.


Definition refusing (e : JSError) (h : Host) : Host :=
  {| initialize := initialize h;
     ssoGetAccessToken := ssoGetAccessToken h;
     mailbox_item := mailbox_item h;
     mailbox_userProfile := mailbox_userProfile h;
     convertToRestId := convertToRestId h;
     fetch := fetch h;
     JSON_parse := JSON_parse h;
     JSON_stringify := JSON_stringify h;
     Number_toString := Number_toString h;
     event_completed := fun allowEvent => if allowEvent then Throw e else Ok tt |}.

(** The usual host of the examples: message [AAA=] of [user@contoso.com],
    user [u1], and [answer] to the POST. *)
Definition contoso (answer : Response) : Host :=
  host (Some "AAA=") (Some "user@contoso.com")
    (mkResponse 200 "OK" (profileBody "u1")) answer.

End Demo.

(** * Properties *)

(** ** The monad *)

Lemma bind_ok {A B} (t : list Event) (a : A) (k : A -> M B) :
  bind (t, Ok a) k = ((t ++ trace (k a))%list, outcome (k a)).
Proof. unfold bind, trace, outcome. destruct (k a); reflexivity. Qed.

Lemma bind_throw {A B} (t : list Event) (e : JSError) (k : A -> M B) :
  bind (t, Throw e) k = (t, Throw e).
Proof. reflexivity. Qed.

Lemma bind_pending {A B} (t : list Event) (k : A -> M B) :
  bind (t, Pending) k = (t, Pending).
Proof. reflexivity. Qed.

Lemma bind_ret_r {A} (m : M A) : bind m ret = m.
Proof.
  destruct m as [t [[a | e] |]]; simpl; [rewrite app_nil_r| |]; reflexivity.
Qed.

(** A [catch] that only rethrows changes nothing. *)
Lemma try_catch_rethrow {A} (m : M A) : try_catch m (fun error => throw error) = m.
Proof.
  destruct m as [t [[a | e] |]]; simpl; [|rewrite app_nil_r|]; reflexivity.
Qed.

Lemma eta_M {A} (m : M A) : m = (trace m, outcome m).
Proof. destruct m; reflexivity. Qed.

Lemma trace_bind {A B} (m : M A) (k : A -> M B) :
  trace (bind m k) =
  match outcome m with
  | Settled (Ok a) => (trace m ++ trace (k a))%list
  | _ => trace m
  end.
Proof.
  destruct m as [t [[a | e] |]]; [rewrite bind_ok| |]; reflexivity.
Qed.

Lemma outcome_bind {A B} (m : M A) (k : A -> M B) :
  outcome (bind m k) =
  match outcome m with
  | Settled (Ok a) => outcome (k a)
  | Settled (Throw e) => Throw e
  | Pending => Pending
  end.
Proof.
  destruct m as [t [[a | e] |]]; [rewrite bind_ok| |]; reflexivity.
Qed.

(** ** Strings *)

Lemma includes_app_l (a b p : string) : includes b p = true -> includes (a ++ b) p = true.
Proof.
  intros H. induction a as [|c a IH]; simpl; [assumption|].
  rewrite IH. apply orb_true_r.
Qed.

Lemma includes_prefix (s p : string) : String.prefix p s = true -> includes s p = true.
Proof. intros H. destruct s; cbn [includes]; rewrite H; reflexivity. Qed.

Lemma nonempty_spec (s : string) : nonempty s = true <-> s <> EmptyString.
Proof. destruct s; simpl; split; congruence. Qed.

(** ** The category chosen by the command handler *)

Lemma strict_eq_true_iff (v : JSValue) : strict_eq_true v = true <-> v = JBool true.
Proof.
  destruct v as [| |[|]| | | |]; simpl; split; intros H;
    (reflexivity || discriminate || congruence).
Qed.

Lemma selects_iff (reportingOptions : JSValue) (i : nat) :
  selects reportingOptions i = true <-> get_index reportingOptions i = Ok (JBool true).
Proof.
  unfold selects. destruct (get_index reportingOptions i) as [v | e].
  - rewrite strict_eq_true_iff. split; congruence.
  - split; discriminate.
Qed.

Lemma selects_false_iff (reportingOptions : JSValue) (i : nat) :
  selects reportingOptions i = false <-> get_index reportingOptions i <> Ok (JBool true).
Proof.
  rewrite <- selects_iff. destruct (selects reportingOptions i); split; congruence.
Qed.

(** A value that is truthy can be indexed. *)
Lemma get_index_truthy (v : JSValue) (i : nat) :
  truthy v = true -> exists x, get_index v i = Ok x.
Proof.
  unfold get_index, get_prop.
  destruct v; simpl; try discriminate; intros _;
    try (destruct (String.eqb _ _)); eauto.
Qed.

Lemma selects_falsy (v : JSValue) (i : nat) : truthy v = false -> selects v i = false.
Proof.
  unfold selects, get_index, get_prop.
  destruct v as [| |b|n|s|l|p]; simpl; try discriminate; try reflexivity.
  destruct s; simpl; [|discriminate]. intros _.
  destruct (String.eqb _ _); reflexivity.
Qed.

(** The chain of tests of lines 207-213, for every value of [event.options]. *)
Lemma onSpamReport_category_chain (reportingOptions : JSValue) :
  onSpamReport_category reportingOptions = Ok (categoryOf reportingOptions).
Proof.
  unfold onSpamReport_category, categoryOf.
  destruct (truthy reportingOptions) eqn:T.
  - destruct (get_index_truthy reportingOptions 0 T) as [x0 E0].
    destruct (get_index_truthy reportingOptions 1 T) as [x1 E1].
    destruct (get_index_truthy reportingOptions 2 T) as [x2 E2].
    unfold selects. rewrite E0, E1, E2. simpl.
    destruct (strict_eq_true x0), (strict_eq_true x1), (strict_eq_true x2); reflexivity.
  - rewrite !selects_falsy by assumption. reflexivity.
Qed.

(** C3: the options map to a category by positional precedence: a [true]
    at index 0 gives phishing whatever indices 1 and 2 hold; otherwise a
    [true] at index 1 gives spam; otherwise a [true] at index 2 gives
    notJunk. *)
Theorem category_positional_precedence (reportingOptions : JSValue) :
  (get_index reportingOptions 0 = Ok (JBool true) ->
   onSpamReport_category reportingOptions = Ok phishing) /\
  (get_index reportingOptions 0 <> Ok (JBool true) ->
   get_index reportingOptions 1 = Ok (JBool true) ->
   onSpamReport_category reportingOptions = Ok spam) /\
  (get_index reportingOptions 0 <> Ok (JBool true) ->
   get_index reportingOptions 1 <> Ok (JBool true) ->
   get_index reportingOptions 2 = Ok (JBool true) ->
   onSpamReport_category reportingOptions = Ok notJunk).
Proof.
  rewrite onSpamReport_category_chain. unfold categoryOf.
  rewrite <- !selects_false_iff, <- !selects_iff.
  repeat split; intros; repeat match goal with H : selects _ _ = _ |- _ => rewrite H; clear H end;
    reflexivity.
Qed.

Lemma category_positional_precedence_witness :
  onSpamReport_category
    (JObject [("0", JBool true); ("1", JBool true); ("2", JBool true)]) = Ok phishing /\
  onSpamReport_category (JObject [("0", JBool false); ("1", JBool true); ("2", JBool true)])
    = Ok spam /\
  onSpamReport_category (JArray [JBool false; JBool false; JBool true]) = Ok notJunk.
Proof.
  split; [|split].
  - apply (proj1 (category_positional_precedence _)). reflexivity.
  - apply (proj1 (proj2 (category_positional_precedence _))).
    + discriminate.
    + reflexivity.
  - apply (proj2 (proj2 (category_positional_precedence _))).
    + discriminate.
    + discriminate.
    + reflexivity.
Defined.

(** C4: options with no [true] entry, and options that are missing
    ([undefined]) or [null], give the default category phishing. *)
Theorem category_default (reportingOptions : JSValue) :
  (forall i, get_index reportingOptions i <> Ok (JBool true)) ->
  onSpamReport_category reportingOptions = Ok phishing.
Proof.
  intros H. rewrite onSpamReport_category_chain. unfold categoryOf.
  rewrite !(proj2 (selects_false_iff _ _)) by apply H. reflexivity.
Qed.

Lemma category_default_witness :
  onSpamReport_category JUndefined = Ok phishing /\
  onSpamReport_category JNull = Ok phishing /\
  onSpamReport_category (JObject []) = Ok phishing /\
  onSpamReport_category (JObject [("0", JBool false); ("1", JBool false); ("2", JBool false)])
    = Ok phishing.
Proof.
  split; [|split; [|split]]; apply category_default; intros i; unfold get_index, get_prop.
  - discriminate.
  - discriminate.
  - discriminate.
  - cbn [lookup]. repeat destruct (String.eqb _ _); discriminate.
Defined.

(** C10: the tests use strict equality with [true].  An entry that is
    truthy but is not the boolean [true] does not select its category: the
    choice falls through to the next index, and to the default phishing
    after index 2. *)
Theorem category_strict_equality (reportingOptions v : JSValue) :
  truthy v = true -> v <> JBool true ->
  (get_index reportingOptions 0 = Ok v ->
   onSpamReport_category reportingOptions =
   Ok (if selects reportingOptions 1 then spam
       else if selects reportingOptions 2 then notJunk else phishing)) /\
  (get_index reportingOptions 0 <> Ok (JBool true) ->
   get_index reportingOptions 1 = Ok v ->
   onSpamReport_category reportingOptions =
   Ok (if selects reportingOptions 2 then notJunk else phishing)) /\
  (get_index reportingOptions 0 <> Ok (JBool true) ->
   get_index reportingOptions 1 <> Ok (JBool true) ->
   get_index reportingOptions 2 = Ok v ->
   onSpamReport_category reportingOptions = Ok phishing).
Proof.
  intros _ Hv. rewrite onSpamReport_category_chain. unfold categoryOf.
  assert (F : forall i, get_index reportingOptions i = Ok v -> selects reportingOptions i = false).
  { intros i E. apply selects_false_iff. rewrite E. congruence. }
  rewrite <- !selects_false_iff.
  repeat split; intros;
    repeat match goal with
           | H : get_index _ _ = Ok v |- _ => apply F in H
           | H : selects _ _ = _ |- _ => rewrite H; clear H
           end; reflexivity.
Qed.

Lemma category_strict_equality_witness :
  onSpamReport_category (JObject [("0", JNumber 1); ("1", JBool true)]) = Ok spam /\
  onSpamReport_category (JObject [("0", JBool false); ("1", JString "yes"); ("2", JBool true)])
    = Ok notJunk /\
  onSpamReport_category (JObject [("2", JString "yes")]) = Ok phishing.
Proof.
  split; [|split].
  - apply (proj1 (category_strict_equality
                    (JObject [("0", JNumber 1); ("1", JBool true)]) (JNumber 1)
                    eq_refl ltac:(discriminate))).
    reflexivity.
  - apply (proj1 (proj2 (category_strict_equality
                    (JObject [("0", JBool false); ("1", JString "yes"); ("2", JBool true)])
                    (JString "yes") eq_refl ltac:(discriminate)))).
    + discriminate.
    + reflexivity.
  - apply (proj2 (proj2 (category_strict_equality
                    (JObject [("2", JString "yes")]) (JString "yes")
                    eq_refl ltac:(discriminate)))).
    + discriminate.
    + discriminate.
    + reflexivity.
Defined.

(** ** The Graph client *)

Lemma makeGraphRequest_checked (h : Host) (accessToken path queryParams : string) :
  nonempty path = true -> startsWith path "/" = true ->
  nonempty queryParams && negb (startsWith queryParams "?") = false ->
  makeGraphRequest h accessToken path queryParams
  = getAfterChecks h accessToken path queryParams.
Proof.
  intros H1 H2 H3. unfold makeGraphRequest, getAfterChecks.
  rewrite H1, H2, H3. cbn [negb]. unfold call, pure.
  destruct (fetch h _) as [[response | e] |]; [|reflexivity|reflexivity].
  rewrite bind_ok. destruct (ok response); simpl; [|reflexivity].
  destruct (JSON_parse h _); reflexivity.
Qed.

Lemma makeGraphPostRequest_checked (h : Host) (accessToken path : string) (body : JSValue) :
  nonempty path = true -> startsWith path "/" = true ->
  makeGraphPostRequest h accessToken path body = postAfterChecks h accessToken path body.
Proof.
  intros H1 H2. unfold makeGraphPostRequest, postAfterChecks.
  rewrite H1, H2. cbn [negb]. rewrite try_catch_rethrow. unfold call, pure.
  destruct (fetch h _) as [[response | e] |]; [|reflexivity|reflexivity].
  rewrite bind_ok. destruct (ok response); simpl; [|reflexivity].
  destruct (JSON_parse h _); reflexivity.
Qed.

(** C8: both operations check their arguments before any request is made:
    an empty path and a path that does not begin with [/] are refused, and
    [makeGraphRequest] refuses a non-empty query that does not begin with
    [?].  The trace of a refused call is empty. *)
Theorem graph_preconditions (h : Host) (accessToken path queryParams : string)
    (body : JSValue) :
  (path = EmptyString ->
   makeGraphRequest h accessToken path queryParams = ([], Throw (Error "path is required."))
   /\ makeGraphPostRequest h accessToken path body = ([], Throw (Error "path is required.")))
  /\
  (path <> EmptyString -> startsWith path "/" = false ->
   makeGraphRequest h accessToken path queryParams
     = ([], Throw (Error "path must start with '/'."))
   /\ makeGraphPostRequest h accessToken path body
     = ([], Throw (Error "path must start with '/'.")))
  /\
  (queryParams <> EmptyString -> startsWith queryParams "?" = false ->
   exists message,
     makeGraphRequest h accessToken path queryParams = ([], Throw (Error message))
     /\ (path <> EmptyString -> startsWith path "/" = true ->
         message = "queryParams must start with '?'.")).
Proof.
  unfold makeGraphRequest, makeGraphPostRequest, throw.
  split; [|split].
  - intros ->. split; reflexivity.
  - intros Hp Hs. apply nonempty_spec in Hp. rewrite Hp, Hs. split; reflexivity.
  - intros Hq Hs. apply nonempty_spec in Hq. rewrite Hq, Hs. simpl.
    destruct (nonempty path) eqn:Hp; cbn [negb].
    + destruct (startsWith path "/"); cbn [negb]; eexists; split;
        try reflexivity; intros; discriminate.
    + eexists. split; [reflexivity|]. intros Hp'. apply nonempty_spec in Hp'. congruence.
Qed.

Lemma graph_preconditions_witness :
  let h := Demo.host None None (mkResponse 200 "OK" "{}") (mkResponse 200 "OK" "{}") in
  (makeGraphRequest h "token" EmptyString "?$select=id" = ([], Throw (Error "path is required."))
   /\ makeGraphPostRequest h "token" EmptyString JNull = ([], Throw (Error "path is required.")))
  /\ (makeGraphRequest h "token" "me" "?$select=id"
        = ([], Throw (Error "path must start with '/'."))
      /\ makeGraphPostRequest h "token" "me" JNull
        = ([], Throw (Error "path must start with '/'.")))
  /\ (exists message,
        makeGraphRequest h "token" "/me" "$select=id" = ([], Throw (Error message))
        /\ ("/me" <> EmptyString -> startsWith "/me" "/" = true ->
            message = "queryParams must start with '?'.")).
Proof.
  intros h. split; [|split].
  - apply (proj1 (graph_preconditions h "token" EmptyString "?$select=id" JNull)).
    reflexivity.
  - apply (proj1 (proj2 (graph_preconditions h "token" "me" "?$select=id" JNull))).
    + discriminate.
    + reflexivity.
  - apply (proj2 (proj2 (graph_preconditions h "token" "/me" "$select=id" JNull))).
    + discriminate.
    + reflexivity.
Defined.

(** A body that parses as JSON without a truthy [error] field adds nothing
    to the message of a failed POST. *)
Lemma postErrorMessage_without_error (h : Host) (response : Response)
    (data error : JSValue) :
  JSON_parse h (responseText response) = Ok data ->
  get_prop data "error" = Ok error -> truthy error = false ->
  postErrorMessage h response
  = string_of_Z (status response) ++ " " ++ statusText response.
Proof.
  intros Hd He Ht. unfold postErrorMessage.
  rewrite Hd. simpl. rewrite He. simpl. rewrite Ht. reflexivity.
Qed.

(** The error of a failed GET at a concrete answer: a 404 whose body is
    [{"error":{"message":"Resource missing"}}] gives the status text
    alone, where the POST of the same module gives the status code and the
    embedded message. *)
Example get_error_is_status_text :
  let answer := mkResponse 404 "Not Found" (Demo.errorBody "Resource missing") in
  let h := Demo.host None None answer answer in
  outcome (makeGraphRequest h "token" "/me" "?$select=id") = Throw (Error "Not Found")
  /\ outcome (makeGraphPostRequest h "token" "/me" JNull)
     = Throw (Error "404 Not Found: Resource missing").
Proof. split; reflexivity. Qed.

(** C2, as stated, fails: a 500 answer to [makeGraphPostRequest] whose body
    [{}] parses as JSON without an error field gives the message
    [500 Internal Server Error], without the raw response text. *)
Lemma post_error_without_raw_text :
  let response := mkResponse 500 "Internal Server Error" "{}" in
  let h := Demo.host None None response response in
  JSON_parse h (responseText response) = Ok (JObject [])
  /\ outcome (makeGraphPostRequest h "token" emailThreatsPath (JObject []))
     = Throw (Error "500 Internal Server Error")
  /\ includes "500 Internal Server Error" (responseText response) = false.
Proof. repeat split. Qed.

(** C2, amended.  On a non-success status both operations fail.  The error
    of [makeGraphPostRequest] has as message the status code, a space and
    the status text, followed by: [: ] and the embedded error message when
    the body parses as JSON with a truthy [error] field whose [message] is
    truthy and converts to text (a string is its own text); [: ] and the
    serialised [error] when that [message] is falsy; nothing when the body
    parses as JSON without a truthy [error] field; [: ] and the raw
    response text otherwise (the body does not parse, it parses to [null],
    or the conversion of the message throws).  A 403 POST answer with body
    [{"error":{"message":"Forbidden"}}] gives a message that contains both
    [403] and [Forbidden]. *)
Theorem graph_error_messages (h : Host) (accessToken path : string) (response : Response) :
  nonempty path = true -> startsWith path "/" = true -> ok response = false ->
  let text := responseText response in
  let head := string_of_Z (status response) ++ " " ++ statusText response in
  (forall queryParams,
     queryParams = EmptyString \/ startsWith queryParams "?" = true ->
     fetch h (getRequest accessToken path queryParams) = Ok response ->
     exists e,
       makeGraphRequest h accessToken path queryParams
       = ([EvFetch (getRequest accessToken path queryParams)], Throw e))
  /\
  (forall body,
     fetch h (postRequest h accessToken (graphBase ++ path) body) = Ok response ->
     makeGraphPostRequest h accessToken path body
     = ([EvFetch (postRequest h accessToken (graphBase ++ path) body)],
        Throw (Error (postErrorMessage h response))))
  /\
  (forall data error message,
     JSON_parse h text = Ok data -> get_prop data "error" = Ok error ->
     truthy error = true -> get_prop error "message" = Ok message ->
     (forall s, message = JString s -> s <> EmptyString ->
                postErrorMessage h response = head ++ ": " ++ s)
     /\ (forall detail, truthy message = true -> ToString h message = Ok detail ->
         postErrorMessage h response = head ++ ": " ++ detail)
     /\ (forall e, truthy message = true -> ToString h message = Throw e ->
         postErrorMessage h response = head ++ ": " ++ text)
     /\ (truthy message = false ->
         postErrorMessage h response = head ++ ": " ++ JSON_stringify h error))
  /\
  (forall data error,
     JSON_parse h text = Ok data -> get_prop data "error" = Ok error ->
     truthy error = false ->
     postErrorMessage h response = head)
  /\
  (forall e,
     JSON_parse h text = Throw e
     \/ (exists data, JSON_parse h text = Ok data /\ get_prop data "error" = Throw e) ->
     postErrorMessage h response = head ++ ": " ++ text)
  /\
  (status response = 403%Z ->
   JSON_parse h text = Ok (JObject [("error", JObject [("message", JString "Forbidden")])]) ->
   includes (postErrorMessage h response) "403" = true
   /\ includes (postErrorMessage h response) "Forbidden" = true).
Proof.
  intros Hp Hs Hok text head.
  split; [|split; [|split; [|split; [|split]]]].
  - intros queryParams Hq Hf. eexists. rewrite makeGraphRequest_checked; try assumption.
    + unfold getAfterChecks. rewrite Hf, Hok. reflexivity.
    + destruct Hq as [-> | ->]; [reflexivity | apply andb_false_r].
  - intros body Hf. rewrite makeGraphPostRequest_checked by assumption.
    unfold postAfterChecks. rewrite Hf, Hok. reflexivity.
  - intros data error message Hd He Ht Hm.
    assert (E : postErrorMessage h response
                = match (if truthy message then ToString h message
                         else Ok (JSON_stringify h error)) with
                  | Ok detail => head ++ ": " ++ detail
                  | Throw _ => head ++ ": " ++ text
                  end).
    { unfold postErrorMessage. fold text. fold head.
      rewrite Hd. simpl. rewrite He. simpl. rewrite Ht, Hm. simpl.
      destruct (if truthy message then ToString h message else Ok (JSON_stringify h error));
        reflexivity. }
    rewrite E. split; [|split; [|split]].
    + intros s -> Hne. destruct s; [congruence | reflexivity].
    + intros detail -> ->. reflexivity.
    + intros e -> ->. reflexivity.
    + intros ->. reflexivity.
  - intros data error Hd He Ht. unfold postErrorMessage. fold text.
    rewrite Hd. simpl. rewrite He. simpl. rewrite Ht. reflexivity.
  - intros e [Hd | [data [Hd He]]]; unfold postErrorMessage; fold text; rewrite Hd; simpl.
    + reflexivity.
    + rewrite He. reflexivity.
  - intros H403 Hd. unfold postErrorMessage. fold text. rewrite Hd, H403. simpl rbind.
    cbv iota beta. split.
    + apply includes_prefix. reflexivity.
    + apply (includes_app_l ("403 " ++ statusText response) ": Forbidden"). reflexivity.
Qed.

Lemma graph_error_messages_witness :
  let response := mkResponse 403 "Forbidden" (Demo.errorBody "Forbidden") in
  let h := Demo.host (Some "AAA=") (Some "user@contoso.com")
             (mkResponse 401 "Unauthorized" "no token") response in
  makeGraphPostRequest h "token" emailThreatsPath JNull
    = ([EvFetch (postRequest h "token" (graphBase ++ emailThreatsPath) JNull)],
       Throw (Error "403 Forbidden: Forbidden"))
  /\ includes (postErrorMessage h response) "403" = true
  /\ includes (postErrorMessage h response) "Forbidden" = true
  /\ postErrorMessage h (mkResponse 500 "Internal Server Error" "{}")
     = "500 Internal Server Error".
Proof.
  intros response h.
  destruct (graph_error_messages h "token" emailThreatsPath response
              eq_refl eq_refl eq_refl) as (_ & P & _ & _ & _ & X).
  destruct (graph_error_messages h "token" emailThreatsPath
              (mkResponse 500 "Internal Server Error" "{}")
              eq_refl eq_refl eq_refl) as (_ & _ & _ & N & _ & _).
  split; [|split; [|split]].
  - apply (P JNull). reflexivity.
  - apply X; reflexivity.
  - apply X; reflexivity.
  - apply (N (JObject []) JUndefined); reflexivity.
Defined.

(** ** Identity resolver and message locator *)

Lemma lookup_absent (k : string) (props : list (string * JSValue)) :
  ~ In k (map fst props) -> lookup k props = JUndefined.
Proof.
  induction props as [|[k' v] rest IH]; simpl; intros H; [reflexivity|].
  destruct (String.eqb_spec k k') as [-> | _].
  - exfalso. apply H. left. reflexivity.
  - apply IH. intros Hin. apply H. right. assumption.
Qed.

Lemma getCurrentUserId_unfold (h : Host) (accessToken : string) :
  getCurrentUserId h accessToken =
  (userProfile <- makeGraphRequest h accessToken "/me" "?$select=id" ;;
   if truthy userProfile then
     id <- pure (get_prop userProfile "id") ;;
     if truthy id then ret id else throw noUserId
   else throw noUserId).
Proof. unfold getCurrentUserId. apply try_catch_rethrow. Qed.

Lemma getCurrentUserId_outcome (h : Host) (accessToken : string) (profile : JSValue) :
  outcome (makeGraphRequest h accessToken "/me" "?$select=id") = Ok profile ->
  outcome (getCurrentUserId h accessToken) =
  if truthy profile then
    match get_prop profile "id" with
    | Ok id => if truthy id then Ok id else Throw noUserId
    | Throw e => Throw e
    end
  else Throw noUserId.
Proof.
  intros H. rewrite getCurrentUserId_unfold, outcome_bind, H.
  destruct (truthy profile); [|reflexivity].
  unfold pure. destruct (get_prop profile "id") as [id | e]; [|reflexivity].
  rewrite bind_ok. destruct (truthy id); reflexivity.
Qed.

(** C9: [getCurrentUserId] fails when the profile answered to [GET /me] has
    no identifier (no profile, no [id] property, or a falsy [id]) and
    returns the identifier otherwise; [getRecipientEmailAddress] fails when
    the mailbox address is absent (no user profile, no address, or an empty
    one) and returns the address otherwise. *)
Theorem identity_resolution (h : Host) (accessToken : string) :
  (forall profile,
     outcome (makeGraphRequest h accessToken "/me" "?$select=id") = Ok profile ->
     (truthy profile = false ->
      outcome (getCurrentUserId h accessToken) = Throw noUserId)
     /\ (forall props, profile = JObject props -> ~ In "id" (map fst props) ->
         outcome (getCurrentUserId h accessToken) = Throw noUserId)
     /\ (forall id, get_prop profile "id" = Ok id -> truthy id = false ->
         outcome (getCurrentUserId h accessToken) = Throw noUserId)
     /\ (forall id, get_prop profile "id" = Ok id -> truthy id = true ->
         outcome (getCurrentUserId h accessToken) = Ok id))
  /\
  (mailbox_userProfile h = None
   \/ (exists p, mailbox_userProfile h = Some p
                 /\ (emailAddress p = None \/ emailAddress p = Some EmptyString)) ->
   getRecipientEmailAddress h = ([], Throw noEmailAddress))
  /\
  (forall p address,
     mailbox_userProfile h = Some p -> emailAddress p = Some address ->
     address <> EmptyString ->
     getRecipientEmailAddress h = ([], Ok address)).
Proof.
  split; [|split].
  - intros profile H. rewrite (getCurrentUserId_outcome h accessToken profile H).
    split; [|split; [|split]].
    + intros ->. reflexivity.
    + intros props -> Hno. simpl. rewrite lookup_absent by assumption. reflexivity.
    + intros id E F. rewrite E, F. destruct (truthy profile); reflexivity.
    + intros id E T. rewrite E, T.
      destruct profile; simpl in *; try discriminate; try reflexivity.
      * destruct b; [reflexivity|]. inversion E; subst. discriminate.
      * inversion E; subst. discriminate.
      * destruct s; [|reflexivity]. simpl in E. inversion E; subst. discriminate.
  - unfold getRecipientEmailAddress.
    intros [H | [p [H [H1 | H1]]]]; rewrite H; cbv beta iota; try rewrite H1; reflexivity.
  - intros p address H1 H2 Hne. unfold getRecipientEmailAddress.
    rewrite H1. cbv beta iota. rewrite H2.
    destruct address; [congruence | reflexivity].
Qed.

Lemma identity_resolution_witness :
  let h id email := Demo.host (Some "AAA=") email
                      (mkResponse 200 "OK" id) (mkResponse 200 "OK" "{}") in
  outcome (getCurrentUserId (h "{}" None) "token") = Throw noUserId
  /\ outcome (getCurrentUserId (h (Demo.profileBody EmptyString) None) "token")
     = Throw noUserId
  /\ outcome (getCurrentUserId (h (Demo.profileBody "u1") None) "token") = Ok (JString "u1")
  /\ getRecipientEmailAddress (h "{}" None) = ([], Throw noEmailAddress)
  /\ getRecipientEmailAddress (h "{}" (Some "user@contoso.com"))
     = ([], Ok "user@contoso.com").
Proof.
  intros h. split; [|split; [|split; [|split]]].
  - apply (proj1 (proj2 (proj1 (identity_resolution (h "{}" None) "token")
                           (JObject []) eq_refl)) [] eq_refl).
    intros [].
  - apply (proj1 (proj2 (proj2 (proj1 (identity_resolution
              (h (Demo.profileBody EmptyString) None) "token")
              (JObject [("id", JString EmptyString)]) eq_refl)))
             (JString EmptyString)); reflexivity.
  - apply (proj2 (proj2 (proj2 (proj1 (identity_resolution
              (h (Demo.profileBody "u1") None) "token")
              (JObject [("id", JString "u1")]) eq_refl)))
             (JString "u1")); reflexivity.
  - apply (proj1 (proj2 (identity_resolution (h "{}" None) "token"))).
    right. exists (mkUserProfile None). split; [reflexivity | left; reflexivity].
  - apply (proj2 (proj2 (identity_resolution (h "{}" (Some "user@contoso.com")) "token"))
             (mkUserProfile (Some "user@contoso.com"))); [reflexivity | reflexivity | discriminate].
Defined.

Lemma getCurrentMessageUrl_selected (h : Host) (accessToken : string) (item : Item)
    (id : string) :
  mailbox_item h = Some item -> itemId item = Some id -> id <> EmptyString ->
  getCurrentMessageUrl h accessToken =
  (userId <- getCurrentUserId h accessToken ;;
   restId <- call (EvConvertToRestId id RestVersion_v2_0)
               (convertToRestId h id RestVersion_v2_0) ;;
   userIdText <- pure (ToString h userId) ;;
   ret ("https://graph.microsoft.com/beta/users/" ++ userIdText
          ++ "/messages/" ++ restId)).
Proof.
  intros Hi Hid Hne. unfold getCurrentMessageUrl. rewrite Hi, Hid.
  destruct id as [|c rest]; [congruence|]. apply try_catch_rethrow.
Qed.

(** C6: with a message selected and its identifier available, the message
    URL is the Graph base, [/users/], the resolved user identifier,
    [/messages/] and the identifier converted by the host; for the host
    identifier [AAA=] and the user id [u1] it is
    [https://graph.microsoft.com/beta/users/u1/messages/] followed by the
    converted [AAA=].  A user identifier that is not a string enters the
    URL as the text the template literal gives it. *)
Theorem message_url_form (h : Host) (accessToken : string) (item : Item)
    (id restId : string) (userId : JSValue) :
  mailbox_item h = Some item -> itemId item = Some id -> id <> EmptyString ->
  outcome (getCurrentUserId h accessToken) = Ok userId ->
  convertToRestId h id RestVersion_v2_0 = Ok restId ->
  (forall user, userId = JString user ->
     outcome (getCurrentMessageUrl h accessToken)
     = Ok (graphBase ++ "/users/" ++ user ++ "/messages/" ++ restId))
  /\ outcome (getCurrentMessageUrl h accessToken)
     = rbind (ToString h userId) (fun text =>
         Ok (graphBase ++ "/users/" ++ text ++ "/messages/" ++ restId))
  /\ (id = "AAA=" -> userId = JString "u1" ->
      outcome (getCurrentMessageUrl h accessToken)
      = Ok ("https://graph.microsoft.com/beta/users/u1/messages/" ++ restId)).
Proof.
  intros Hi Hid Hne Hu Hc.
  assert (E : outcome (getCurrentMessageUrl h accessToken)
              = rbind (ToString h userId) (fun text =>
                  Ok (graphBase ++ "/users/" ++ text ++ "/messages/" ++ restId))).
  { rewrite (getCurrentMessageUrl_selected h accessToken item id Hi Hid Hne).
    rewrite outcome_bind, Hu. unfold call. rewrite Hc, bind_ok. unfold pure.
    destruct (ToString h userId); reflexivity. }
  split; [|split]; [intros user -> | | intros _ ->]; exact E.
Qed.

Lemma message_url_form_witness :
  let h := Demo.host (Some "AAA=") (Some "user@contoso.com")
             (mkResponse 200 "OK" (Demo.profileBody "u1")) (mkResponse 200 "OK" "{}") in
  convertToRestId h "AAA=" RestVersion_v2_0 = Ok "AAA="
  /\ outcome (getCurrentMessageUrl h "token")
     = Ok "https://graph.microsoft.com/beta/users/u1/messages/AAA=".
Proof.
  intros h. split; [reflexivity|].
  apply (proj2 (proj2 (message_url_form h "token" (mkItem (Some "AAA=")) "AAA=" "AAA="
                         (JString "u1") eq_refl eq_refl ltac:(discriminate)
                         eq_refl eq_refl)));
    reflexivity.
Defined.

(** ** Traces of the sub-steps *)

Lemma posts_app (a b : list Event) : posts (a ++ b)%list = (posts a ++ posts b)%list.
Proof.
  induction a as [|ev a IH]; simpl; [reflexivity|].
  destruct ev; try assumption.
  destruct (String.eqb _ _); simpl; congruence.
Qed.

Lemma completions_app (a b : list Event) :
  completions (a ++ b)%list = (completions a ++ completions b)%list.
Proof.
  induction a as [|ev a IH]; simpl; [reflexivity|].
  destruct ev; simpl; congruence.
Qed.

Section Traces.

Variable h : Host.

Lemma trace_getRecipientEmailAddress : trace (getRecipientEmailAddress h) = [].
Proof.
  unfold getRecipientEmailAddress.
  destruct (mailbox_userProfile h) as [p|]; [|reflexivity].
  destruct (emailAddress p) as [[|c rest]|]; reflexivity.
Qed.

(** Reading the mailbox address awaits nothing. *)
Lemma getRecipientEmailAddress_settles : outcome (getRecipientEmailAddress h) <> Pending.
Proof.
  unfold getRecipientEmailAddress.
  destruct (mailbox_userProfile h) as [p|]; [|discriminate].
  destruct (emailAddress p) as [[|c rest]|]; discriminate.
Qed.

(** [getCurrentUserId] makes one request, the GET of the profile. *)
Lemma trace_getCurrentUserId (accessToken : string) :
  trace (getCurrentUserId h accessToken)
  = [EvFetch (getRequest accessToken "/me" "?$select=id")].
Proof.
  rewrite getCurrentUserId_unfold, trace_bind.
  rewrite makeGraphRequest_checked by reflexivity. unfold getAfterChecks.
  destruct (fetch h _) as [[response | e] |]; [|reflexivity|reflexivity].
  unfold trace, outcome, fst, snd.
  destruct (ok response); [|reflexivity].
  destruct (JSON_parse h _) as [profile | e]; [|reflexivity].
  destruct (truthy profile); [|reflexivity].
  unfold pure. destruct (get_prop profile "id") as [id | e]; [|reflexivity].
  rewrite bind_ok. destruct (truthy id); reflexivity.
Qed.

(** [getCurrentMessageUrl] makes no request, or the GET of the profile, or
    that GET and then one conversion. *)
Lemma trace_getCurrentMessageUrl (accessToken : string) :
  let profile := EvFetch (getRequest accessToken "/me" "?$select=id") in
  trace (getCurrentMessageUrl h accessToken) = []
  \/ trace (getCurrentMessageUrl h accessToken) = [profile]
  \/ exists id, trace (getCurrentMessageUrl h accessToken)
                = [profile; EvConvertToRestId id RestVersion_v2_0].
Proof.
  intros profile. unfold getCurrentMessageUrl.
  destruct (mailbox_item h) as [item|]; [|left; reflexivity].
  destruct (itemId item) as [[|c rest]|]; try (left; reflexivity).
  rewrite try_catch_rethrow, trace_bind, trace_getCurrentUserId.
  destruct (outcome (getCurrentUserId h accessToken)) as [[userId | e] |];
    [|right; left; reflexivity|right; left; reflexivity].
  right; right. exists (String c rest). unfold call, pure.
  destruct (convertToRestId h _ _); [|reflexivity].
  rewrite bind_ok. destruct (ToString h userId); reflexivity.
Qed.

Lemma posts_getCurrentMessageUrl (accessToken : string) :
  posts (trace (getCurrentMessageUrl h accessToken)) = [].
Proof.
  destruct (trace_getCurrentMessageUrl accessToken) as [E | [E | [id E]]];
    rewrite E; reflexivity.
Qed.

Lemma completions_getCurrentMessageUrl (accessToken : string) :
  completions (trace (getCurrentMessageUrl h accessToken)) = [].
Proof.
  destruct (trace_getCurrentMessageUrl accessToken) as [E | [E | [id E]]];
    rewrite E; reflexivity.
Qed.

(** The POST of the report makes one request. *)
Lemma trace_post_report (accessToken : string) (body : JSValue) :
  trace (makeGraphPostRequest h accessToken emailThreatsPath body)
  = [EvFetch (postRequest h accessToken (graphBase ++ emailThreatsPath) body)].
Proof.
  rewrite makeGraphPostRequest_checked by reflexivity. unfold postAfterChecks.
  destruct (fetch h _) as [[response | e] |]; reflexivity.
Qed.



End Traces.

(** ** The report submitter *)

(** The run of [submitEmailThreat], by the outcome of each sub-step. *)
Lemma submitEmailThreat_run (h : Host) (category : Category) :
  let token := EvSsoGetAccessToken scopes in
  submitEmailThreat h category =
  match ssoGetAccessToken h scopes with
  | Settled (Ok accessToken) =>
      let recipient := getRecipientEmailAddress h in
      match outcome recipient with
      | Settled (Ok recipientEmail) =>
          let located := getCurrentMessageUrl h accessToken in
          match outcome located with
          | Settled (Ok messageUrl) =>
              let posted := makeGraphPostRequest h accessToken emailThreatsPath
                              (reportBody category recipientEmail messageUrl) in
              ((token :: trace recipient ++ trace located ++ trace posted)%list,
               outcome posted)
          | stop => ((token :: trace recipient ++ trace located)%list, stopped stop)
          end
      | stop => (token :: trace recipient, stopped stop)
      end
  | stop => ([token], stopped stop)
  end.
Proof.
  intros token. unfold submitEmailThreat. rewrite try_catch_rethrow. unfold call.
  destruct (ssoGetAccessToken h scopes) as [[accessToken | e] |];
    [|reflexivity|reflexivity].
  rewrite bind_ok. cbv zeta. rewrite trace_bind, outcome_bind.
  destruct (outcome (getRecipientEmailAddress h)) as [[recipientEmail | e] |];
    [|reflexivity|reflexivity].
  rewrite trace_bind, outcome_bind.
  destruct (outcome (getCurrentMessageUrl h accessToken)) as [[messageUrl | e] |];
    [|reflexivity|reflexivity].
  rewrite bind_ret_r. reflexivity.
Qed.

(** C7: an error raised by a sub-step of [submitEmailThreat] (the token,
    the recipient address, the message URL, the POST) is the error
    [submitEmailThreat] throws, unchanged; the run stops at the first
    failing sub-step: its trace is the traces of the sub-steps up to that
    one, each once, and nothing after. *)
Theorem submitEmailThreat_propagates (h : Host) (category : Category) (e : JSError) :
  let token := EvSsoGetAccessToken scopes in
  let recipient := getRecipientEmailAddress h in
  (ssoGetAccessToken h scopes = Throw e ->
   submitEmailThreat h category = ([token], Throw e))
  /\
  (forall accessToken,
     ssoGetAccessToken h scopes = Ok accessToken ->
     outcome recipient = Throw e ->
     submitEmailThreat h category = (token :: trace recipient, Throw e))
  /\
  (forall accessToken recipientEmail,
     ssoGetAccessToken h scopes = Ok accessToken ->
     outcome recipient = Ok recipientEmail ->
     outcome (getCurrentMessageUrl h accessToken) = Throw e ->
     submitEmailThreat h category
     = ((token :: trace recipient ++ trace (getCurrentMessageUrl h accessToken))%list,
        Throw e))
  /\
  (forall accessToken recipientEmail messageUrl,
     ssoGetAccessToken h scopes = Ok accessToken ->
     outcome recipient = Ok recipientEmail ->
     outcome (getCurrentMessageUrl h accessToken) = Ok messageUrl ->
     let posted := makeGraphPostRequest h accessToken emailThreatsPath
                     (reportBody category recipientEmail messageUrl) in
     outcome posted = Throw e ->
     submitEmailThreat h category
     = ((token :: trace recipient ++ trace (getCurrentMessageUrl h accessToken)
           ++ trace posted)%list,
        Throw e)).
Proof.
  intros token recipient. rewrite submitEmailThreat_run. fold token. fold recipient.
  split; [|split; [|split]].
  - intros ->. reflexivity.
  - intros accessToken -> Hr. cbv zeta. rewrite Hr. reflexivity.
  - intros accessToken recipientEmail -> Hr Hu. cbv zeta. rewrite Hr, Hu. reflexivity.
  - intros accessToken recipientEmail messageUrl -> Hr Hu posted Hp. cbv zeta.
    rewrite Hr, Hu. fold posted. rewrite Hp. reflexivity.
Qed.

Lemma submitEmailThreat_propagates_witness :
  let profile := mkResponse 200 "OK" (Demo.profileBody "u1") in
  let refused := mkResponse 403 "Forbidden" (Demo.errorBody "Forbidden") in
  let h := Demo.host (Some "AAA=") (Some "user@contoso.com") profile refused in
  let token := EvSsoGetAccessToken scopes in
  let get := EvFetch (getRequest "token" "/me" "?$select=id") in
  submitEmailThreat (Demo.tokenless (Error "interaction_required") h) spam
    = ([token], Throw (Error "interaction_required"))
  /\ submitEmailThreat (Demo.host (Some "AAA=") None profile refused) spam
    = ([token], Throw noEmailAddress)
  /\ submitEmailThreat (Demo.host None (Some "user@contoso.com") profile refused) spam
    = ([token], Throw (Error "Item ID is not available - cannot get message URL"))
  /\ submitEmailThreat h spam
    = ([token; get; EvConvertToRestId "AAA=" RestVersion_v2_0;
        EvFetch (postRequest h "token" (graphBase ++ emailThreatsPath)
                   (reportBody spam "user@contoso.com"
                      "https://graph.microsoft.com/beta/users/u1/messages/AAA="))],
       Throw (Error "403 Forbidden: Forbidden")).
Proof.
  intros profile refused h token get. split; [|split; [|split]].
  - apply (proj1 (submitEmailThreat_propagates
                    (Demo.tokenless (Error "interaction_required") h) spam _)).
    reflexivity.
  - apply (proj1 (proj2 (submitEmailThreat_propagates
                    (Demo.host (Some "AAA=") None profile refused) spam _)) "token");
      reflexivity.
  - apply (proj1 (proj2 (proj2 (submitEmailThreat_propagates
                    (Demo.host None (Some "user@contoso.com") profile refused) spam _)))
             "token" "user@contoso.com"); reflexivity.
  - apply (proj2 (proj2 (proj2 (submitEmailThreat_propagates h spam _)))
             "token" "user@contoso.com"
             "https://graph.microsoft.com/beta/users/u1/messages/AAA="); reflexivity.
Defined.

Lemma posts_submitEmailThreat (h : Host) (category : Category) :
  posts (trace (submitEmailThreat h category)) =
  match ssoGetAccessToken h scopes with
  | Settled (Ok accessToken) =>
      match outcome (getRecipientEmailAddress h),
            outcome (getCurrentMessageUrl h accessToken) with
      | Settled (Ok recipientEmail), Settled (Ok messageUrl) =>
          [postRequest h accessToken (graphBase ++ emailThreatsPath)
             (reportBody category recipientEmail messageUrl)]
      | _, _ => []
      end
  | _ => []
  end.
Proof.
  rewrite submitEmailThreat_run.
  destruct (ssoGetAccessToken h scopes) as [[accessToken | e] |];
    [|reflexivity|reflexivity].
  cbv zeta. rewrite trace_getRecipientEmailAddress.
  destruct (outcome (getRecipientEmailAddress h)) as [[recipientEmail | e] |];
    [|reflexivity|reflexivity].
  destruct (outcome (getCurrentMessageUrl h accessToken)) as [[messageUrl | e] |];
    unfold trace at 1, fst; cbn [posts app]; rewrite ?posts_app, posts_getCurrentMessageUrl.
  - rewrite trace_post_report. reflexivity.
  - reflexivity.
  - reflexivity.
Qed.

Lemma completions_submitEmailThreat (h : Host) (category : Category) :
  completions (trace (submitEmailThreat h category)) = [].
Proof.
  rewrite submitEmailThreat_run.
  destruct (ssoGetAccessToken h scopes) as [[accessToken | e] |];
    [|reflexivity|reflexivity].
  cbv zeta. rewrite trace_getRecipientEmailAddress.
  destruct (outcome (getRecipientEmailAddress h)) as [[recipientEmail | e] |];
    [|reflexivity|reflexivity].
  destruct (outcome (getCurrentMessageUrl h accessToken)) as [[messageUrl | e] |];
    unfold trace at 1, fst; cbn [completions app];
    rewrite ?completions_app, completions_getCurrentMessageUrl.
  - rewrite trace_post_report. reflexivity.
  - reflexivity.
  - reflexivity.
Qed.

Lemma reportBody_fields (category : Category) (recipientEmail messageUrl : string) :
  get_prop (reportBody category recipientEmail messageUrl) "category"
    = Ok (JString (category_string category))
  /\ get_prop (reportBody category recipientEmail messageUrl) "recipientEmailAddress"
    = Ok (JString recipientEmail)
  /\ get_prop (reportBody category recipientEmail messageUrl) "messageUrl"
    = Ok (JString messageUrl).
Proof. repeat split. Qed.



(** ** The command handler *)

(** The run of [onSpamReport].  The handler catches every error of its
    steps and then signals failure; the success signal is sent inside the
    [try], so an error it throws is caught too and a failure signal
    follows it.  Nothing follows a step that never settles. *)
Lemma onSpamReport_run (h : Host) (event : SpamReportEvent) :
  onSpamReport h event =
  match initialize h with
  | Settled (Ok _) =>
      let submitted := submitEmailThreat h (categoryOf (options event)) in
      match outcome submitted with
      | Settled (Ok _) =>
          match event_completed h true with
          | Ok _ => ((EvInitialize :: trace submitted ++ [EvCompleted true])%list, Ok tt)
          | Throw _ =>
              ((EvInitialize :: trace submitted
                  ++ [EvCompleted true; EvCompleted false])%list,
               event_completed h false)
          end
      | Settled (Throw _) =>
          ((EvInitialize :: trace submitted ++ [EvCompleted false])%list,
           event_completed h false)
      | Pending => (EvInitialize :: trace submitted, Pending)
      end
  | Settled (Throw _) => ([EvInitialize; EvCompleted false], event_completed h false)
  | Pending => ([EvInitialize], Pending)
  end.
Proof.
  unfold onSpamReport, completed, call, pure.
  rewrite onSpamReport_category_chain.
  destruct (initialize h) as [[[] | e0] |]; [|reflexivity|reflexivity].
  rewrite bind_ok, bind_ok. cbn [trace outcome fst snd app].
  rewrite (eta_M (submitEmailThreat h (categoryOf (options event)))).
  cbn [trace outcome fst snd].
  destruct (outcome (submitEmailThreat h (categoryOf (options event))))
    as [[response | e] |]; cbn.
  - destruct (event_completed h true) as [[] | e]; cbn.
    + reflexivity.
    + rewrite <- app_assoc. reflexivity.
  - reflexivity.
  - reflexivity.
Qed.

(** The report the handler posts carries the category chosen from the
    event's options. *)
Lemma posts_onSpamReport (h : Host) (event : SpamReportEvent) :
  posts (trace (onSpamReport h event)) =
  match initialize h with
  | Settled (Ok _) => posts (trace (submitEmailThreat h (categoryOf (options event))))
  | _ => []
  end.
Proof.
  rewrite onSpamReport_run.
  destruct (initialize h) as [[[] | e0] |]; [|reflexivity|reflexivity].
  cbv zeta.
  destruct (outcome (submitEmailThreat h (categoryOf (options event)))) as [[r | e] |];
    [destruct (event_completed h true)| |];
    cbn [trace fst posts]; rewrite ?posts_app; cbn [posts]; rewrite ?app_nil_r;
    reflexivity.
Qed.

(** The completion signals of a run, by the outcome of its steps. *)
Lemma completions_onSpamReport (h : Host) (event : SpamReportEvent) :
  completions (trace (onSpamReport h event)) =
  match initialize h with
  | Settled (Ok _) =>
      match outcome (submitEmailThreat h (categoryOf (options event))) with
      | Settled (Ok _) =>
          match event_completed h true with
          | Ok _ => [true]
          | Throw _ => [true; false]
          end
      | Settled (Throw _) => [false]
      | Pending => []
      end
  | Settled (Throw _) => [false]
  | Pending => []
  end.
Proof.
  rewrite onSpamReport_run.
  pose proof (completions_submitEmailThreat h (categoryOf (options event))) as Hq.
  destruct (initialize h) as [[[] | e0] |]; [|reflexivity|reflexivity].
  cbv zeta.
  destruct (outcome (submitEmailThreat h (categoryOf (options event)))) as [[r | e] |];
    [destruct (event_completed h true)| |];
    cbn [trace fst completions]; rewrite ?completions_app, Hq; reflexivity.
Qed.




(** A fully successful flow: the token, the profile, the conversion and a
    200 answer to the POST; [completed] is called once, with
    [allowEvent] true. *)
Example onSpamReport_success :
  let h := Demo.host (Some "AAA=") (Some "user@contoso.com")
             (mkResponse 200 "OK" (Demo.profileBody "u1")) (mkResponse 200 "OK" "{}") in
  let event := mkEvent (JObject [("0", JBool false); ("1", JBool true); ("2", JBool false)]) in
  onSpamReport h event
  = ([EvInitialize;
      EvSsoGetAccessToken scopes;
      EvFetch (getRequest "token" "/me" "?$select=id");
      EvConvertToRestId "AAA=" RestVersion_v2_0;
      EvFetch (postRequest h "token" (graphBase ++ emailThreatsPath)
                 (reportBody spam "user@contoso.com"
                    "https://graph.microsoft.com/beta/users/u1/messages/AAA="));
      EvCompleted true],
     Ok tt).
Proof. reflexivity. Qed.

(** A refused POST and an account manager that fails to initialise:
    [completed] is called once, with [allowEvent] false. *)
Example onSpamReport_failure :
  let h := Demo.host (Some "AAA=") (Some "user@contoso.com")
             (mkResponse 200 "OK" (Demo.profileBody "u1"))
             (mkResponse 403 "Forbidden" (Demo.errorBody "Forbidden")) in
  completions (trace (onSpamReport h (mkEvent JUndefined))) = [false]
  /\ onSpamReport (Demo.uninitialised (Error "no nested app auth") h) (mkEvent JUndefined)
     = ([EvInitialize; EvCompleted false], Ok tt).
Proof. split; reflexivity. Qed.

(** * Further properties of the Graph client *)

Lemma query_checked (queryParams : string) :
  queryParams = EmptyString \/ startsWith queryParams "?" = true ->
  nonempty queryParams && negb (startsWith queryParams "?") = false.
Proof. intros [-> | ->]; [reflexivity | apply andb_false_r]. Qed.

(** X1: with arguments that pass the checks, each operation calls [fetch]
    exactly once, whatever the answer: a GET of the Graph base followed by
    the path and the query, or a POST of the serialised body to the base
    followed by the path; the token is sent as it is in the Authorization
    header. *)
Theorem graph_single_request (h : Host) (accessToken path queryParams : string)
    (body : JSValue) :
  nonempty path = true -> startsWith path "/" = true ->
  (queryParams = EmptyString \/ startsWith queryParams "?" = true ->
   trace (makeGraphRequest h accessToken path queryParams)
   = [EvFetch (mkRequest "GET" ("https://graph.microsoft.com/beta" ++ path ++ queryParams)
                 [("Authorization", accessToken)] None)])
  /\ trace (makeGraphPostRequest h accessToken path body)
     = [EvFetch (mkRequest "POST" ("https://graph.microsoft.com/beta" ++ path)
                   [("Authorization", accessToken); ("Content-Type", "application/json")]
                   (Some (JSON_stringify h body)))].
Proof.
  intros Hp Hs. split.
  - intros Hq. rewrite makeGraphRequest_checked by auto using query_checked.
    unfold getAfterChecks. destruct (fetch h _) as [[response | e] |]; reflexivity.
  - rewrite makeGraphPostRequest_checked by assumption.
    unfold postAfterChecks. destruct (fetch h _) as [[response | e] |]; reflexivity.
Qed.

Lemma graph_single_request_witness :
  let h := Demo.offline (TypeError "Failed to fetch") (Demo.contoso (mkResponse 200 "OK" "{}")) in
  trace (makeGraphRequest h "token" "/me" "?$select=id")
  = [EvFetch (mkRequest "GET" "https://graph.microsoft.com/beta/me?$select=id"
                [("Authorization", "token")] None)]
  /\ trace (makeGraphPostRequest h "token" "/me" JNull)
     = [EvFetch (mkRequest "POST" "https://graph.microsoft.com/beta/me"
                   [("Authorization", "token"); ("Content-Type", "application/json")]
                   (Some "null"))].
Proof.
  intros h.
  destruct (graph_single_request h "token" "/me" "?$select=id" JNull eq_refl eq_refl)
    as [G P].
  split; [apply G; right; reflexivity | exact P].
Defined.

(** X2: an error thrown by [fetch] itself (the network) is the error of the
    operation, unchanged; the operation does not try again. *)
Theorem graph_fetch_error_propagates (h : Host) (accessToken path queryParams : string)
    (body : JSValue) (e : JSError) :
  nonempty path = true -> startsWith path "/" = true ->
  (queryParams = EmptyString \/ startsWith queryParams "?" = true ->
   fetch h (getRequest accessToken path queryParams) = Throw e ->
   makeGraphRequest h accessToken path queryParams
   = ([EvFetch (getRequest accessToken path queryParams)], Throw e))
  /\ (fetch h (postRequest h accessToken (graphBase ++ path) body) = Throw e ->
      makeGraphPostRequest h accessToken path body
      = ([EvFetch (postRequest h accessToken (graphBase ++ path) body)], Throw e)).
Proof.
  intros Hp Hs. split.
  - intros Hq Hf. rewrite makeGraphRequest_checked by auto using query_checked.
    unfold getAfterChecks. rewrite Hf. reflexivity.
  - intros Hf. rewrite makeGraphPostRequest_checked by assumption.
    unfold postAfterChecks. rewrite Hf. reflexivity.
Qed.

Lemma graph_fetch_error_propagates_witness :
  let e := TypeError "Failed to fetch" in
  let h := Demo.offline e (Demo.contoso (mkResponse 200 "OK" "{}")) in
  outcome (makeGraphRequest h "token" "/me" EmptyString) = Throw e
  /\ outcome (makeGraphPostRequest h "token" emailThreatsPath (JObject [])) = Throw e.
Proof.
  intros e h.
  destruct (graph_fetch_error_propagates h "token" "/me" EmptyString (JObject []) e
              eq_refl eq_refl) as [G _].
  destruct (graph_fetch_error_propagates h "token" emailThreatsPath EmptyString (JObject []) e
              eq_refl eq_refl) as [_ P].
  split.
  - rewrite G; [reflexivity | left; reflexivity | reflexivity].
  - rewrite P; reflexivity.
Defined.

(** X3: on a success status both operations return what the body parses to;
    a success answer whose body does not parse as JSON (an empty body, for
    one) makes the operation fail with the parser's error. *)
Theorem graph_success_needs_json (h : Host) (accessToken path queryParams : string)
    (body : JSValue) (response : Response) :
  nonempty path = true -> startsWith path "/" = true -> ok response = true ->
  (queryParams = EmptyString \/ startsWith queryParams "?" = true ->
   fetch h (getRequest accessToken path queryParams) = Ok response ->
   outcome (makeGraphRequest h accessToken path queryParams)
   = JSON_parse h (responseText response))
  /\ (fetch h (postRequest h accessToken (graphBase ++ path) body) = Ok response ->
      outcome (makeGraphPostRequest h accessToken path body)
      = JSON_parse h (responseText response)).
Proof.
  intros Hp Hs Hok. split.
  - intros Hq Hf. rewrite makeGraphRequest_checked by auto using query_checked.
    unfold getAfterChecks. rewrite Hf, Hok. reflexivity.
  - intros Hf. rewrite makeGraphPostRequest_checked by assumption.
    unfold postAfterChecks. rewrite Hf, Hok. reflexivity.
Qed.

Lemma graph_success_needs_json_witness :
  let h := Demo.contoso (mkResponse 204 "No Content" EmptyString) in
  outcome (makeGraphRequest h "token" "/me" "?$select=id") = Ok (JObject [("id", JString "u1")])
  /\ outcome (makeGraphPostRequest h "token" emailThreatsPath (JObject []))
     = Throw (mkError "SyntaxError" "Unexpected token in JSON").
Proof.
  intros h.
  destruct (graph_success_needs_json h "token" "/me" "?$select=id" (JObject [])
              (mkResponse 200 "OK" (Demo.profileBody "u1")) eq_refl eq_refl eq_refl)
    as [G _].
  destruct (graph_success_needs_json h "token" emailThreatsPath EmptyString (JObject [])
              (mkResponse 204 "No Content" EmptyString) eq_refl eq_refl eq_refl)
    as [_ P].
  split.
  - rewrite G; [reflexivity | right; reflexivity | reflexivity].
  - rewrite P; reflexivity.
Defined.

Lemma prefix_append (p s : string) : String.prefix p (p ++ s) = true.
Proof.
  induction p as [|c p IH]; simpl; [destruct s; reflexivity|].
  destruct (ascii_dec c c); [assumption | congruence].
Qed.

Lemma prefix_same (p : string) : String.prefix p p = true.
Proof.
  induction p as [|c p IH]; simpl; [reflexivity|].
  destruct (ascii_dec c c); [assumption | congruence].
Qed.

Lemma append_fixed (a s : string) : a ++ s = a -> s = EmptyString.
Proof.
  induction a as [|c a IH]; simpl; intros H; [assumption|].
  apply IH. congruence.
Qed.

(** X4: the message of a failed POST always begins with the status code, a
    space and the status text; it is nothing more than that exactly when
    the body parses as JSON and its [error] property is falsy or missing:
    then neither a detail nor the raw text is added. *)
Theorem postErrorMessage_head (h : Host) (response : Response) :
  let head := string_of_Z (status response) ++ " " ++ statusText response in
  startsWith (postErrorMessage h response) head = true
  /\ (postErrorMessage h response = head <->
      exists data error,
        JSON_parse h (responseText response) = Ok data
        /\ get_prop data "error" = Ok error
        /\ truthy error = false).
Proof.
  intros head. unfold postErrorMessage, startsWith. fold head.
  assert (N : forall x, head ++ ": " ++ x <> head).
  { intros x H. apply append_fixed in H. discriminate. }
  destruct (JSON_parse h (responseText response)) as [data | e] eqn:Hp; simpl.
  - destruct (get_prop data "error") as [error | e] eqn:Hg; simpl.
    + destruct (truthy error) eqn:T.
      * destruct (get_prop error "message") as [message | e]; simpl;
          try destruct (if truthy message then ToString h message
                        else Ok (JSON_stringify h error)); simpl;
          (split; [apply prefix_append|]);
          (split; [intros H; apply N in H; contradiction|]);
          intros (d & er & Hd & He & Ht); congruence.
      * split; [apply prefix_same|].
        split; [|reflexivity]. intros _. exists data, error. auto.
    + split; [apply prefix_append|].
      split; [intros H; apply N in H; contradiction|].
      intros (d & er & Hd & He & Ht); congruence.
  - split; [apply prefix_append|].
    split; [intros H; apply N in H; contradiction|].
    intros (d & er & Hd & He & Ht); congruence.
Qed.

(** The decimal form of an index is never the word [message]. *)
Lemma string_of_nat_not_message (i : nat) : String.eqb "message" (string_of_nat i) = false.
Proof.
  apply String.eqb_neq. unfold string_of_nat, NilZero.string_of_uint.
  destruct (Nat.to_uint i); simpl; discriminate.
Qed.

Lemma string_get_message (s : string) (i : nat) : string_get s i "message" = JUndefined.
Proof.
  revert i. induction s as [|c s IH]; intros i; cbn [string_get]; [reflexivity|].
  rewrite string_of_nat_not_message. apply IH.
Qed.

Lemma array_get_message (items : list JSValue) (i : nat) :
  array_get items i "message" = JUndefined.
Proof.
  revert i. induction items as [|x items IH]; intros i; cbn [array_get]; [reflexivity|].
  rewrite string_of_nat_not_message. apply IH.
Qed.

(** X5: when the [error] property of the body of a failed POST is truthy
    but is not an object (a string, a number, [true], an array), it has no
    [message], and the message of the failure ends with the serialised
    [error]. *)
Theorem postErrorMessage_plain_error (h : Host) (response : Response)
    (data error : JSValue) :
  JSON_parse h (responseText response) = Ok data ->
  get_prop data "error" = Ok error ->
  truthy error = true ->
  (forall props, error <> JObject props) ->
  let head := string_of_Z (status response) ++ " " ++ statusText response in
  postErrorMessage h response = head ++ ": " ++ JSON_stringify h error.
Proof.
  intros Hd He Ht Hn head. unfold postErrorMessage. rewrite Hd. simpl. rewrite He. simpl.
  rewrite Ht.
  assert (Hm : get_prop error "message" = Ok JUndefined).
  { destruct error as [| |b|n|s|items|props]; simpl in *; try discriminate; try reflexivity.
    - rewrite string_get_message. reflexivity.
    - rewrite array_get_message. reflexivity.
    - exfalso. apply (Hn props). reflexivity. }
  rewrite Hm. reflexivity.
Qed.

Lemma postErrorMessage_plain_error_witness :
  let body := "{" ++ Demo.quote "error" ++ ":" ++ Demo.quote "invalid_grant" ++ "}" in
  let response := mkResponse 400 "Bad Request" body in
  postErrorMessage (Demo.contoso response) response
  = "400 Bad Request: " ++ Demo.quote "invalid_grant".
Proof.
  intros body response.
  apply (postErrorMessage_plain_error (Demo.contoso response) response
           (JObject [("error", JString "invalid_grant")]) (JString "invalid_grant")
           eq_refl eq_refl eq_refl).
  intros props. discriminate.
Defined.

(** * Further properties of the identity resolver and the message locator *)

(** X6: [getCurrentUserId] makes one request whatever happens, the GET of
    [/me?$select=id] with the token as Authorization header; a network
    error is rethrown unchanged, a non-success status fails with the status
    text, and a success answer that is not JSON fails with the parser's
    error. *)
Theorem getCurrentUserId_request (h : Host) (accessToken : string) :
  let req := mkRequest "GET" "https://graph.microsoft.com/beta/me?$select=id"
               [("Authorization", accessToken)] None in
  trace (getCurrentUserId h accessToken) = [EvFetch req]
  /\ (forall e, fetch h req = Throw e ->
      outcome (getCurrentUserId h accessToken) = Throw e)
  /\ (forall response, fetch h req = Ok response -> ok response = false ->
      outcome (getCurrentUserId h accessToken) = Throw (Error (statusText response)))
  /\ (forall response e, fetch h req = Ok response -> ok response = true ->
      JSON_parse h (responseText response) = Throw e ->
      outcome (getCurrentUserId h accessToken) = Throw e).
Proof.
  intros req. split; [apply trace_getCurrentUserId|].
  rewrite getCurrentUserId_unfold, outcome_bind.
  rewrite makeGraphRequest_checked by reflexivity. unfold getAfterChecks.
  change (getRequest accessToken "/me" "?$select=id") with req.
  split; [|split].
  - intros e ->. reflexivity.
  - intros response -> ->. reflexivity.
  - intros response e -> -> ->. reflexivity.
Qed.

Lemma getCurrentUserId_request_witness :
  let profile status text body :=
    Demo.host (Some "AAA=") None (mkResponse status text body) (mkResponse 200 "OK" "{}") in
  outcome (getCurrentUserId (Demo.offline (TypeError "Failed to fetch")
                               (profile 200%Z "OK" "{}")) "token")
    = Throw (TypeError "Failed to fetch")
  /\ outcome (getCurrentUserId (profile 401%Z "Unauthorized" "{}") "token")
    = Throw (Error "Unauthorized")
  /\ outcome (getCurrentUserId (profile 200%Z "OK" "<html>") "token")
    = Throw (mkError "SyntaxError" "Unexpected token in JSON").
Proof.
  intros profile. split; [|split].
  - apply (proj1 (proj2 (getCurrentUserId_request _ "token"))). reflexivity.
  - apply (proj1 (proj2 (proj2 (getCurrentUserId_request _ "token")))
             (mkResponse 401 "Unauthorized" "{}")); reflexivity.
  - apply (proj2 (proj2 (proj2 (getCurrentUserId_request _ "token")))
             (mkResponse 200 "OK" "<html>")); reflexivity.
Defined.

(** X7: without an open item, or with an item that has no identifier (or an
    empty one), [getCurrentMessageUrl] fails at once, each case with its own
    message, and calls neither the Graph API nor the conversion. *)
Theorem message_url_requires_selection (h : Host) (accessToken : string) :
  (mailbox_item h = None ->
   getCurrentMessageUrl h accessToken
   = ([], Throw (Error "No email item is currently selected.")))
  /\ (forall item,
        mailbox_item h = Some item ->
        itemId item = None \/ itemId item = Some EmptyString ->
        getCurrentMessageUrl h accessToken
        = ([], Throw (Error "Item ID is not available - cannot get message URL"))).
Proof.
  unfold getCurrentMessageUrl. split.
  - intros ->. reflexivity.
  - intros item -> [-> | ->]; reflexivity.
Qed.

Lemma message_url_requires_selection_witness :
  let answer := mkResponse 200 "OK" "{}" in
  getCurrentMessageUrl (Demo.unselected (Demo.contoso answer)) "token"
    = ([], Throw (Error "No email item is currently selected."))
  /\ getCurrentMessageUrl (Demo.host None None answer answer) "token"
    = ([], Throw (Error "Item ID is not available - cannot get message URL"))
  /\ getCurrentMessageUrl (Demo.host (Some EmptyString) None answer answer) "token"
    = ([], Throw (Error "Item ID is not available - cannot get message URL")).
Proof.
  intros answer. split; [|split].
  - apply (proj1 (message_url_requires_selection _ "token")). reflexivity.
  - apply (proj2 (message_url_requires_selection _ "token") (mkItem None));
      [reflexivity | left; reflexivity].
  - apply (proj2 (message_url_requires_selection _ "token") (mkItem (Some EmptyString)));
      [reflexivity | right; reflexivity].
Defined.

(** X8: with an item selected, [getCurrentMessageUrl] resolves the user
    first: if that fails, the error is rethrown unchanged and the
    identifier is never converted; if the conversion throws, its error is
    rethrown unchanged. *)
Theorem message_url_first_failure (h : Host) (accessToken : string) (item : Item)
    (id : string) (e : JSError) :
  mailbox_item h = Some item -> itemId item = Some id -> id <> EmptyString ->
  let profile := EvFetch (getRequest accessToken "/me" "?$select=id") in
  (outcome (getCurrentUserId h accessToken) = Throw e ->
   getCurrentMessageUrl h accessToken = ([profile], Throw e))
  /\ (forall userId,
        outcome (getCurrentUserId h accessToken) = Ok userId ->
        convertToRestId h id RestVersion_v2_0 = Throw e ->
        getCurrentMessageUrl h accessToken
        = ([profile; EvConvertToRestId id RestVersion_v2_0], Throw e)).
Proof.
  intros Hi Hid Hne profile.
  rewrite (getCurrentMessageUrl_selected h accessToken item id Hi Hid Hne).
  rewrite (eta_M (bind _ _)), trace_bind, outcome_bind, trace_getCurrentUserId.
  split.
  - intros ->. reflexivity.
  - intros userId -> Hc. unfold call. rewrite Hc. reflexivity.
Qed.

Lemma message_url_first_failure_witness :
  let get := EvFetch (getRequest "token" "/me" "?$select=id") in
  let good := Demo.contoso (mkResponse 200 "OK" "{}") in
  let expired := Demo.host (Some "AAA=") None (mkResponse 401 "Unauthorized" "{}")
                   (mkResponse 200 "OK" "{}") in
  getCurrentMessageUrl expired "token" = ([get], Throw (Error "Unauthorized"))
  /\ getCurrentMessageUrl (Demo.unconvertible (Error "Invalid item id") good) "token"
     = ([get; EvConvertToRestId "AAA=" RestVersion_v2_0], Throw (Error "Invalid item id")).
Proof.
  intros get good expired. split.
  - apply (proj1 (message_url_first_failure expired "token" (mkItem (Some "AAA=")) "AAA="
                    (Error "Unauthorized") eq_refl eq_refl ltac:(discriminate))).
    reflexivity.
  - apply (proj2 (message_url_first_failure
                    (Demo.unconvertible (Error "Invalid item id") good) "token"
                    (mkItem (Some "AAA=")) "AAA=" (Error "Invalid item id")
                    eq_refl eq_refl ltac:(discriminate)) (JString "u1")); reflexivity.
Defined.

(** * Further properties of the report submitter *)

Lemma fetches_app (a b : list Event) : fetches (a ++ b)%list = (fetches a ++ fetches b)%list.
Proof.
  induction a as [|ev a IH]; simpl; [reflexivity|].
  destruct ev; simpl; congruence.
Qed.

(** The requests of [getCurrentMessageUrl]: none, or the GET of the profile. *)
Lemma fetches_getCurrentMessageUrl (h : Host) (accessToken : string) :
  fetches (trace (getCurrentMessageUrl h accessToken)) = []
  \/ fetches (trace (getCurrentMessageUrl h accessToken))
     = [getRequest accessToken "/me" "?$select=id"].
Proof.
  destruct (trace_getCurrentMessageUrl h accessToken) as [E | [E | [id E]]];
    rewrite E; simpl; auto.
Qed.

(** The requests of a run of [submitEmailThreat] that got the token. *)
Lemma fetches_submitEmailThreat (h : Host) (category : Category) (accessToken : string) :
  ssoGetAccessToken h scopes = Ok accessToken ->
  fetches (trace (submitEmailThreat h category)) = []
  \/ exists posted,
       fetches (trace (submitEmailThreat h category))
       = (fetches (trace (getCurrentMessageUrl h accessToken)) ++ posted)%list
       /\ (posted = []
           \/ exists recipientEmail messageUrl,
                posted = [postRequest h accessToken (graphBase ++ emailThreatsPath)
                            (reportBody category recipientEmail messageUrl)]).
Proof.
  intros Ht. rewrite submitEmailThreat_run, Ht. cbv zeta.
  rewrite trace_getRecipientEmailAddress.
  destruct (outcome (getRecipientEmailAddress h)) as [[recipientEmail | e] |];
    [|left; reflexivity|left; reflexivity].
  right.
  destruct (outcome (getCurrentMessageUrl h accessToken)) as [[messageUrl | e] |];
    unfold trace at 1, fst; cbn [fetches app]; rewrite ?fetches_app.
  - rewrite trace_post_report. eexists. split; [reflexivity|]. right.
    exists recipientEmail, messageUrl. reflexivity.
  - exists []. split; [rewrite app_nil_r; reflexivity | left; reflexivity].
  - exists []. split; [rewrite app_nil_r; reflexivity | left; reflexivity].
Qed.

(** X9: a run of [submitEmailThreat] first asks for a token with the scopes
    ThreatSubmission.ReadWrite and Mail.Read; every request of the run
    carries that token as its Authorization header, and when no token is
    obtained the run makes no request. *)
Theorem submitEmailThreat_uses_token (h : Host) (category : Category) :
  (exists rest,
     trace (submitEmailThreat h category)
     = EvSsoGetAccessToken ["ThreatSubmission.ReadWrite"; "Mail.Read"] :: rest)
  /\ (forall accessToken,
        ssoGetAccessToken h scopes = Ok accessToken ->
        Forall (fun req => header "Authorization" req = Some accessToken)
               (fetches (trace (submitEmailThreat h category))))
  /\ (forall e,
        ssoGetAccessToken h scopes = Throw e ->
        fetches (trace (submitEmailThreat h category)) = []).
Proof.
  split; [|split].
  - rewrite submitEmailThreat_run.
    destruct (ssoGetAccessToken h scopes) as [[accessToken | e] |];
      [|eexists; reflexivity|eexists; reflexivity].
    cbv zeta.
    destruct (outcome (getRecipientEmailAddress h)) as [[recipientEmail | e] |];
      [|eexists; reflexivity|eexists; reflexivity].
    destruct (outcome (getCurrentMessageUrl h accessToken)) as [[messageUrl | e] |];
      eexists; reflexivity.
  - intros accessToken Ht.
    destruct (fetches_submitEmailThreat h category accessToken Ht)
      as [-> | [posted [-> Hp]]]; [constructor|].
    apply Forall_app. split.
    + destruct (fetches_getCurrentMessageUrl h accessToken) as [-> | ->];
        repeat constructor.
    + destruct Hp as [-> | [recipientEmail [messageUrl ->]]]; repeat constructor.
  - intros e Ht. rewrite submitEmailThreat_run, Ht. reflexivity.
Qed.

Lemma submitEmailThreat_uses_token_witness :
  let h := Demo.contoso (mkResponse 200 "OK" "{}") in
  Forall (fun req => header "Authorization" req = Some "token")
         (fetches (trace (submitEmailThreat h spam)))
  /\ length (fetches (trace (submitEmailThreat h spam))) = 2
  /\ fetches (trace (submitEmailThreat (Demo.tokenless (Error "consent_required") h) spam))
     = [].
Proof.
  intros h. split; [|split].
  - apply (proj1 (proj2 (submitEmailThreat_uses_token h spam))). reflexivity.
  - reflexivity.
  - apply (proj2 (proj2 (submitEmailThreat_uses_token _ spam)) (Error "consent_required")).
    reflexivity.
Defined.

(** X10: when the mailbox address cannot be read, when no item is open, or
    when the open item has no identifier, [submitEmailThreat] fails without
    sending any request to the Graph API (it fails as soon as the token
    call has settled). *)
Theorem local_failures_send_nothing (h : Host) (category : Category) :
  (exists e, outcome (getRecipientEmailAddress h) = Throw e)
  \/ mailbox_item h = None
  \/ (exists item, mailbox_item h = Some item
                   /\ (itemId item = None \/ itemId item = Some EmptyString)) ->
  fetches (trace (submitEmailThreat h category)) = []
  /\ (ssoGetAccessToken h scopes <> Pending ->
      exists e, outcome (submitEmailThreat h category) = Throw e).
Proof.
  intros H. rewrite submitEmailThreat_run.
  destruct (ssoGetAccessToken h scopes) as [[accessToken | e0] |];
    [|split; [reflexivity | eexists; reflexivity]
     |split; [reflexivity | intros N; contradiction N; reflexivity]].
  cbv zeta. rewrite trace_getRecipientEmailAddress.
  destruct (outcome (getRecipientEmailAddress h)) as [[recipientEmail | e1] |] eqn:Hr;
    [|split; [reflexivity | eexists; reflexivity]
     |exfalso; exact (getRecipientEmailAddress_settles h Hr)].
  assert (L : exists e, getCurrentMessageUrl h accessToken = ([], Throw e)).
  { destruct H as [[e He] | [Hi | [item [Hi Hid]]]]; [discriminate| |].
    - eexists. unfold getCurrentMessageUrl. rewrite Hi. reflexivity.
    - eexists. unfold getCurrentMessageUrl. rewrite Hi.
      destruct Hid as [-> | ->]; reflexivity. }
  destruct L as [e ->]. split; [reflexivity | eexists; reflexivity].
Qed.

Lemma local_failures_send_nothing_witness :
  let answer := mkResponse 200 "OK" "{}" in
  fetches (trace (submitEmailThreat (Demo.host (Some "AAA=") None answer answer) spam)) = []
  /\ fetches (trace (submitEmailThreat (Demo.unselected (Demo.contoso answer)) spam)) = []
  /\ fetches (trace (submitEmailThreat
                       (Demo.host None (Some "user@contoso.com") answer answer) spam)) = [].
Proof.
  intros answer. split; [|split].
  - apply (local_failures_send_nothing _ spam). left. eexists. reflexivity.
  - apply (local_failures_send_nothing _ spam). right. left. reflexivity.
  - apply (local_failures_send_nothing _ spam). right. right.
    exists (mkItem None). split; [reflexivity | left; reflexivity].
Defined.

(** * Further properties of the command handler *)

(** X11: choosing the category never throws, whatever value the event's
    [options] hold; spam is chosen only when index 1 is [true] and index 0
    is not, and notJunk only when index 2 is [true] and indices 0 and 1 are
    not. *)
Theorem category_only_if_selected (reportingOptions : JSValue) :
  (exists category, onSpamReport_category reportingOptions = Ok category)
  /\ (onSpamReport_category reportingOptions = Ok spam <->
      get_index reportingOptions 0 <> Ok (JBool true)
      /\ get_index reportingOptions 1 = Ok (JBool true))
  /\ (onSpamReport_category reportingOptions = Ok notJunk <->
      get_index reportingOptions 0 <> Ok (JBool true)
      /\ get_index reportingOptions 1 <> Ok (JBool true)
      /\ get_index reportingOptions 2 = Ok (JBool true)).
Proof.
  rewrite onSpamReport_category_chain. unfold categoryOf.
  rewrite <- !selects_false_iff, <- !selects_iff.
  split; [eexists; reflexivity|].
  destruct (selects reportingOptions 0), (selects reportingOptions 1),
    (selects reportingOptions 2); repeat split; intros; try discriminate;
    repeat match goal with H : _ /\ _ |- _ => destruct H end; try discriminate.
Qed.

Lemma fetches_onSpamReport (h : Host) (event : SpamReportEvent) :
  fetches (trace (onSpamReport h event)) =
  match initialize h with
  | Settled (Ok _) => fetches (trace (submitEmailThreat h (categoryOf (options event))))
  | _ => []
  end.
Proof.
  rewrite onSpamReport_run.
  destruct (initialize h) as [[[] | e0] |]; [|reflexivity|reflexivity].
  cbv zeta.
  destruct (outcome (submitEmailThreat h (categoryOf (options event)))) as [[r | e] |];
    [destruct (event_completed h true)| |];
    cbn [trace fst fetches]; rewrite ?fetches_app; cbn [fetches]; rewrite ?app_nil_r;
    reflexivity.
Qed.

(** X12: a run of the handler posts at most one report, to the
    threat-submission endpoint, and the report carries the category chosen
    from the event's options. *)
Theorem onSpamReport_posts_chosen_category (h : Host) (event : SpamReportEvent) :
  posts (trace (onSpamReport h event)) = []
  \/ exists category accessToken recipientEmail messageUrl,
       onSpamReport_category (options event) = Ok category
       /\ posts (trace (onSpamReport h event))
          = [mkRequest "POST"
               "https://graph.microsoft.com/beta/security/threatSubmission/emailThreats"
               [("Authorization", accessToken); ("Content-Type", "application/json")]
               (Some (JSON_stringify h (reportBody category recipientEmail messageUrl)))]
       /\ get_prop (reportBody category recipientEmail messageUrl) "category"
          = Ok (JString (category_string category)).
Proof.
  rewrite posts_onSpamReport, onSpamReport_category_chain.
  destruct (initialize h) as [[[] | e0] |]; [|left; reflexivity|left; reflexivity].
  rewrite posts_submitEmailThreat.
  destruct (ssoGetAccessToken h scopes) as [[accessToken | e] |];
    [|left; reflexivity|left; reflexivity].
  destruct (outcome (getRecipientEmailAddress h)) as [[recipientEmail | e] |];
    [|left; reflexivity|left; reflexivity].
  destruct (outcome (getCurrentMessageUrl h accessToken)) as [[messageUrl | e] |];
    [|left; reflexivity|left; reflexivity].
  right. exists (categoryOf (options event)), accessToken, recipientEmail, messageUrl.
  repeat split.
Qed.

(** X13: when the account manager cannot be initialised the handler asks
    for no token and sends nothing: it signals failure at once, and ends as
    that call of [event.completed] does. *)
Theorem initialize_failure_blocks_event (h : Host) (event : SpamReportEvent) (e : JSError) :
  initialize h = Throw e ->
  onSpamReport h event = ([EvInitialize; EvCompleted false], event_completed h false).
Proof. intros H. rewrite onSpamReport_run, H. reflexivity. Qed.

Lemma initialize_failure_blocks_event_witness :
  onSpamReport (Demo.uninitialised (Error "MSAL is not available")
                  (Demo.contoso (mkResponse 200 "OK" "{}")))
    (mkEvent (JObject [("1", JBool true)]))
  = ([EvInitialize; EvCompleted false], Ok tt).
Proof.
  exact (initialize_failure_blocks_event
           (Demo.uninitialised (Error "MSAL is not available")
              (Demo.contoso (mkResponse 200 "OK" "{}")))
           (mkEvent (JObject [("1", JBool true)]))
           (Error "MSAL is not available") eq_refl).
Defined.

(** X14: a run of the handler sends at most two requests to the Graph API,
    of which at most one is a POST. *)
Theorem onSpamReport_request_bound (h : Host) (event : SpamReportEvent) :
  length (fetches (trace (onSpamReport h event))) <= 2
  /\ length (posts (trace (onSpamReport h event))) <= 1.
Proof.
  split.
  - rewrite fetches_onSpamReport.
    destruct (initialize h) as [[[] | e0] |]; [|simpl; lia|simpl; lia].
    set (category := categoryOf (options event)).
    destruct (ssoGetAccessToken h scopes) as [[accessToken | e] |] eqn:Ht.
    + destruct (fetches_submitEmailThreat h category accessToken Ht)
        as [-> | [posted [-> Hp]]]; [simpl; lia|].
      rewrite length_app.
      destruct (fetches_getCurrentMessageUrl h accessToken) as [-> | ->];
        destruct Hp as [-> | [r [m ->]]]; simpl; lia.
    + rewrite submitEmailThreat_run, Ht. simpl. lia.
    + rewrite submitEmailThreat_run, Ht. simpl. lia.
  - rewrite posts_onSpamReport.
    destruct (initialize h) as [[[] | e0] |]; [|simpl; lia|simpl; lia].
    rewrite posts_submitEmailThreat.
    destruct (ssoGetAccessToken h scopes) as [[accessToken | e] |];
      [|simpl; lia|simpl; lia].
    destruct (outcome (getRecipientEmailAddress h)) as [[recipientEmail | e] |];
      [|simpl; lia|simpl; lia].
    destruct (outcome (getCurrentMessageUrl h accessToken)) as [[messageUrl | e] |];
      simpl; lia.
Qed.

Lemma get_prop_truthy (v x : JSValue) (k : string) :
  get_prop v k = Ok x -> truthy x = true -> truthy v = true.
Proof.
  intros H T.
  destruct v as [| |b|n|s|items|props]; simpl in *; try discriminate; try reflexivity.
  - inversion H; subst. discriminate T.
  - inversion H; subst. discriminate T.
  - destruct s; [|reflexivity].
    destruct (String.eqb k "length"); inversion H; subst; discriminate T.
Qed.

Lemma getCurrentUserId_resolved (h : Host) (accessToken : string) (profile : Response)
    (userProfile userId : JSValue) :
  fetch h (getRequest accessToken "/me" "?$select=id") = Ok profile ->
  ok profile = true ->
  JSON_parse h (responseText profile) = Ok userProfile ->
  get_prop userProfile "id" = Ok userId -> truthy userId = true ->
  getCurrentUserId h accessToken
  = ([EvFetch (getRequest accessToken "/me" "?$select=id")], Ok userId).
Proof.
  intros Hf Hok Hp Hid Ht.
  rewrite (eta_M (getCurrentUserId h accessToken)), trace_getCurrentUserId.
  rewrite (getCurrentUserId_outcome h accessToken userProfile).
  - rewrite (get_prop_truthy _ _ _ Hid Ht), Hid, Ht. reflexivity.
  - rewrite makeGraphRequest_checked by reflexivity.
    unfold getAfterChecks. rewrite Hf, Hok. cbn [outcome snd]. rewrite Hp. reflexivity.
Qed.

(** The POST of the report returns exactly when its answer is accepted. *)
Lemma post_report_outcome (h : Host) (accessToken : string) (body : JSValue) :
  let posted := makeGraphPostRequest h accessToken emailThreatsPath body in
  match fetch h (postRequest h accessToken (graphBase ++ emailThreatsPath) body) with
  | Settled answer =>
      if accepted h answer then exists response, outcome posted = Ok response
      else exists e, outcome posted = Throw e
  | Pending => outcome posted = Pending
  end.
Proof.
  intros posted. unfold posted.
  rewrite makeGraphPostRequest_checked by reflexivity. unfold postAfterChecks, accepted.
  destruct (fetch h _) as [[response | e] |]; [|eexists; reflexivity|reflexivity].
  unfold outcome, snd. destruct (ok response); [|eexists; reflexivity].
  destruct (JSON_parse h _); eexists; reflexivity.
Qed.

(** X15: once the token, the mailbox address, the user id and the converted
    message id are resolved, the handler makes exactly these host calls in
    this order: initialize, token, GET of the profile, conversion, POST of
    the report, and then the completion.  It allows the event exactly when
    the POST is answered with a success status and a body that parses as
    JSON; on a network error, a non-success status or a success answer that
    is not JSON it blocks the event although the report was sent.  When the
    POST is never answered it signals nothing, and when the success signal
    itself throws it sends the failure signal after it. *)
Theorem allow_event_iff_accepted (h : Host) (event : SpamReportEvent)
    (accessToken recipientEmail id restId userIdText : string) (item : Item)
    (profile : Response) (userProfile userId : JSValue) (category : Category) :
  initialize h = Ok tt ->
  ssoGetAccessToken h scopes = Ok accessToken ->
  outcome (getRecipientEmailAddress h) = Ok recipientEmail ->
  mailbox_item h = Some item -> itemId item = Some id -> id <> EmptyString ->
  fetch h (getRequest accessToken "/me" "?$select=id") = Ok profile ->
  ok profile = true ->
  JSON_parse h (responseText profile) = Ok userProfile ->
  get_prop userProfile "id" = Ok userId -> truthy userId = true ->
  ToString h userId = Ok userIdText ->
  convertToRestId h id RestVersion_v2_0 = Ok restId ->
  onSpamReport_category (options event) = Ok category ->
  let messageUrl := "https://graph.microsoft.com/beta/users/" ++ userIdText
                      ++ "/messages/" ++ restId in
  let post := postRequest h accessToken (graphBase ++ emailThreatsPath)
                (reportBody category recipientEmail messageUrl) in
  let calls := [EvInitialize;
                EvSsoGetAccessToken scopes;
                EvFetch (getRequest accessToken "/me" "?$select=id");
                EvConvertToRestId id RestVersion_v2_0;
                EvFetch post] in
  onSpamReport h event
  = match fetch h post with
    | Settled answer =>
        if accepted h answer then
          match event_completed h true with
          | Ok _ => ((calls ++ [EvCompleted true])%list, Ok tt)
          | Throw _ =>
              ((calls ++ [EvCompleted true; EvCompleted false])%list,
               event_completed h false)
          end
        else ((calls ++ [EvCompleted false])%list, event_completed h false)
    | Pending => (calls, Pending)
    end.
Proof.
  intros Hinit Htok Hrec Hitem Hid Hne Hf Hok Hp Huid Ht Htext Hconv Hcat
    messageUrl post calls.
  rewrite onSpamReport_category_chain in Hcat. inversion Hcat as [Hc]. clear Hcat.
  subst category.
  assert (Hloc : getCurrentMessageUrl h accessToken
                 = ([EvFetch (getRequest accessToken "/me" "?$select=id");
                     EvConvertToRestId id RestVersion_v2_0], Ok messageUrl)).
  { rewrite (getCurrentMessageUrl_selected h accessToken item id Hitem Hid Hne).
    rewrite (getCurrentUserId_resolved h accessToken profile userProfile userId)
      by assumption.
    unfold call, pure. rewrite bind_ok, Hconv, bind_ok, Htext. reflexivity. }
  pose proof (post_report_outcome h accessToken
                (reportBody (categoryOf (options event)) recipientEmail messageUrl))
    as Hpost.
  cbv zeta in Hpost. fold post in Hpost.
  rewrite onSpamReport_run, Hinit, submitEmailThreat_run, Htok. cbv zeta.
  rewrite trace_getRecipientEmailAddress, Hrec, Hloc. cbn [outcome snd trace fst].
  rewrite trace_post_report. fold post.
  destruct (fetch h post) as [answer |].
  - destruct (accepted h answer); destruct Hpost as [x Hx]; rewrite Hx.
    + destruct (event_completed h true); reflexivity.
    + reflexivity.
  - rewrite Hpost. reflexivity.
Qed.

Lemma allow_event_iff_accepted_witness :
  let event := mkEvent (JObject [("0", JBool false); ("2", JBool true)]) in
  let url := "https://graph.microsoft.com/beta/users/u1/messages/AAA=" in
  let run answer :=
    completions (trace (onSpamReport (Demo.contoso answer) event)) in
  run (mkResponse 200 "OK" "{}") = [true]
  /\ run (mkResponse 204 "No Content" EmptyString) = [false]
  /\ run (mkResponse 403 "Forbidden" (Demo.errorBody "Forbidden")) = [false]
  /\ posts (trace (onSpamReport (Demo.contoso (mkResponse 204 "No Content" EmptyString))
                     event))
     = [postRequest (Demo.contoso (mkResponse 204 "No Content" EmptyString)) "token"
          (graphBase ++ emailThreatsPath) (reportBody notJunk "user@contoso.com" url)]
  /\ completions (trace (onSpamReport
                           (Demo.refusing (Error "disposed")
                              (Demo.contoso (mkResponse 200 "OK" "{}"))) event))
     = [true; false].
Proof.
  intros event url run.
  assert (R : forall answer,
             onSpamReport (Demo.contoso answer) event
             = ([EvInitialize; EvSsoGetAccessToken scopes;
                 EvFetch (getRequest "token" "/me" "?$select=id");
                 EvConvertToRestId "AAA=" RestVersion_v2_0;
                 EvFetch (postRequest (Demo.contoso answer) "token"
                            (graphBase ++ emailThreatsPath)
                            (reportBody notJunk "user@contoso.com" url));
                 EvCompleted (accepted (Demo.contoso answer) (Ok answer))],
                Ok tt)).
  { intros answer.
    rewrite (allow_event_iff_accepted (Demo.contoso answer) event "token"
               "user@contoso.com" "AAA=" "AAA=" "u1" (mkItem (Some "AAA="))
               (mkResponse 200 "OK" (Demo.profileBody "u1"))
               (JObject [("id", JString "u1")]) (JString "u1") notJunk);
      try reflexivity; try discriminate.
    change (fetch (Demo.contoso answer) _) with (Settled (Ok answer)).
    cbv iota. destruct (accepted (Demo.contoso answer) (Ok answer)); reflexivity. }
  assert (T : onSpamReport (Demo.refusing (Error "disposed")
                              (Demo.contoso (mkResponse 200 "OK" "{}"))) event
              = ([EvInitialize; EvSsoGetAccessToken scopes;
                  EvFetch (getRequest "token" "/me" "?$select=id");
                  EvConvertToRestId "AAA=" RestVersion_v2_0;
                  EvFetch (postRequest (Demo.contoso (mkResponse 200 "OK" "{}")) "token"
                             (graphBase ++ emailThreatsPath)
                             (reportBody notJunk "user@contoso.com" url));
                  EvCompleted true; EvCompleted false],
                 Ok tt)).
  { rewrite (allow_event_iff_accepted _ event "token"
               "user@contoso.com" "AAA=" "AAA=" "u1" (mkItem (Some "AAA="))
               (mkResponse 200 "OK" (Demo.profileBody "u1"))
               (JObject [("id", JString "u1")]) (JString "u1") notJunk);
      try reflexivity; discriminate. }
  unfold run. rewrite !R, T. repeat split.
Defined.
